(** * pytestplate: the test-module generator, embedded and verified

    A shallow embedding of [pytestplate/module_generator.py] (the class
    [PyTestModuleGenerator], an [ast.NodeVisitor]) and of
    [pytestplate/pytestplate.py] (the per-module loop), followed by the
    properties of the traversal, of the renderer and of the writer. *)

From Stdlib Require Import ZArith NArith Ascii String List Lia Bool.
From stdpp Require Import gmap strings list fin_maps.

Local Open Scope Z_scope.

(** * The program *)

(** ** Prefixes and suffixes *)

(** The text after the prefix [p], when [s] starts with it. *)
Fixpoint strip_prefix (p s : string) : option string :=
  match p with
  | EmptyString => Some s
  | String a p' =>
      match s with
      | EmptyString => None
      | String b s' => if Ascii.eqb a b then strip_prefix p' s' else None
      end
  end.

(** The text before the suffix [suf], when [s] ends with it. *)
Fixpoint strip_suffix (suf s : string) : option string :=
  if String.eqb s suf then Some ""
  else match s with
       | EmptyString => None
       | String c s' => option_map (String c) (strip_suffix suf s')
       end.

(** ** Python strings

    A string is the sequence of the bytes of its text in UTF-8: an ASCII
    character is one byte, any other character two to four bytes of 128
    and above. *)

Module PyStr.

Definition quote : ascii := Eval cbv in ascii_of_nat 34.
Definition backtick : ascii := Eval cbv in ascii_of_nat 96.
Definition newline : ascii := Eval cbv in ascii_of_nat 10.
Definition space : ascii := Eval cbv in ascii_of_nat 32.

(** [s * n] for a [str] and an [int]: the empty string when [n <= 0]. *)
Fixpoint repeat (s : string) (n : nat) : string :=
  match n with
  | O => ""
  | S k => s +:+ repeat s k
  end.

Definition mul (s : string) (n : Z) : string := repeat s (Z.to_nat n).

(** [sep.join(l)] *)
Fixpoint join (sep : string) (l : list string) : string :=
  match l with
  | [] => ""
  | x :: rest =>
      match rest with
      | [] => x
      | _ :: _ => x +:+ sep +:+ join sep rest
      end
  end.

(** The code points that [str.isspace] accepts, which are those that
    [str.strip] removes: the ASCII white space 9..13, 28..32 and the Unicode
    white space U+0085, U+00A0, U+1680, U+2000..U+200A, U+2028, U+2029,
    U+202F, U+205F, U+3000. *)
Definition unicode_whitespace : list N :=
  [9; 10; 11; 12; 13; 28; 29; 30; 31; 32; 133; 160; 5760;
   8192; 8193; 8194; 8195; 8196; 8197; 8198; 8199; 8200; 8201; 8202;
   8232; 8233; 8239; 8287; 12288]%N.

(** [chr(cp).isspace()] *)
Definition isspace (cp : N) : bool := existsb (N.eqb cp) unicode_whitespace.

(** The bytes of a code point in UTF-8. *)
Definition utf8 (cp : N) : string :=
  (if cp <? 128 then String (ascii_of_N cp) ""
   else if cp <? 2048 then
     String (ascii_of_N (192 + cp / 64))
       (String (ascii_of_N (128 + cp mod 64)) "")
   else if cp <? 65536 then
     String (ascii_of_N (224 + cp / 4096))
       (String (ascii_of_N (128 + (cp / 64) mod 64))
          (String (ascii_of_N (128 + cp mod 64)) ""))
   else
     String (ascii_of_N (240 + cp / 262144))
       (String (ascii_of_N (128 + (cp / 4096) mod 64))
          (String (ascii_of_N (128 + (cp / 64) mod 64))
             (String (ascii_of_N (128 + cp mod 64)) ""))))%N.

(** The text after its first character, when that character is white
    space. *)
Definition space_head (s : string) : option string :=
  fold_right (fun cp found =>
                match strip_prefix (utf8 cp) s with
                | Some r => Some r
                | None => found
                end) None unicode_whitespace.

(** The text before its last character, when that character is white
    space. *)
Definition space_last (s : string) : option string :=
  fold_right (fun cp found =>
                match strip_suffix (utf8 cp) s with
                | Some r => Some r
                | None => found
                end) None unicode_whitespace.

(** [s.lstrip()] with no argument: the loop that steps over the white space
    at the start, one character at a time; it runs at most as many times as
    the text is long. *)
Fixpoint lstrip_from (fuel : nat) (s : string) : string :=
  match fuel with
  | O => s
  | S k => match space_head s with
           | Some r => lstrip_from k r
           | None => s
           end
  end.

Definition lstrip (s : string) : string := lstrip_from (String.length s) s.

(** [s.rstrip()] with no argument: the same loop from the end. *)
Fixpoint rstrip_from (fuel : nat) (s : string) : string :=
  match fuel with
  | O => s
  | S k => match space_last s with
           | Some r => rstrip_from k r
           | None => s
           end
  end.

Definition rstrip (s : string) : string := rstrip_from (String.length s) s.

(** [s.strip()] with no argument. *)
Definition strip (s : string) : string := lstrip (rstrip s).

(** [s.startswith(p)] *)
Definition startswith (s p : string) : bool := String.prefix p s.

(** [s.rfind(c)] for a one-character needle; [None] stands for [-1]. *)
Fixpoint rfind (c : ascii) (s : string) : option nat :=
  match s with
  | EmptyString => None
  | String a s' =>
      match rfind c s' with
      | Some i => Some (S i)
      | None => if Ascii.eqb a c then Some O else None
      end
  end.

End PyStr.

(** ** Exceptions and results *)

(** The exceptions the program can meet: the one of [lines[-2]], the one of
    [ast.parse] on a text that is no Python module (a [SyntaxError] in
    Python, the parse error of the specification), and those of [pathlib].
    The interpreter's own limits (the depth of the recursion, the memory)
    are not modelled. *)
Inductive exn : Type :=
| IndexError
| ParseError (msg : string)
| FileNotFoundError
| FileExistsError
| IsADirectoryError
| NotADirectoryError
| UnicodeDecodeError.

Inductive result (A : Type) : Type :=
| Ok (a : A)
| Raise (e : exn).

Arguments Ok {A} a.
Arguments Raise {A} e.

(** The error monad, with stdpp's [x ← r; k] for its bind. *)
#[global] Instance result_ret : MRet result := fun A a => Ok a.
#[global] Instance result_bind : MBind result := fun A B k r =>
  match r with
  | Ok a => k a
  | Raise e => Raise e
  end.

(** [l[-k]] on a Python list, for [k >= 1]: an [IndexError] when the list
    holds fewer than [k] items. *)
Definition getitem_neg {A : Type} (l : list A) (k : nat) : result A :=
  if (k <=? length l)%nat then
    match l !! (length l - k)%nat with
    | Some x => Ok x
    | None => Raise IndexError
    end
  else Raise IndexError.

(** ** The syntax tree

    The nodes of Python's [ast] that the generator dispatches on, each with
    its child nodes in the order [ast.iter_child_nodes] yields them; [Other]
    is every node class without a [visit_] method of its own, which
    [NodeVisitor.visit] hands to [generic_visit]. *)

#[warnings="-register-all"]
Inductive node : Type :=
| Module (body : list node)
| FunctionDef (name : string) (body : list node)
| AsyncFunctionDef (name : string) (body : list node)
| ClassDef (name : string) (body : list node)
| Other (children : list node).

(** ** Paths

    A [pathlib.Path] as the list of its parts below the anchor. The anchor
    itself (the root of the absolute paths that the command line builds) is
    the empty list: its name is empty and its parent is itself, as in
    [pathlib]. *)

Module Path.

Abbreviation t := (list string).

Definition name (p : t) : string := List.last p "".

Definition parent (p : t) : t := List.removelast p.

(** [p / s] *)
Definition div (p : t) (s : string) : t := p ++ [s].

(** [p.stem]: the name without its last suffix; a leading or a trailing
    dot starts no suffix. *)
Definition stem (p : t) : string :=
  let n := name p in
  match PyStr.rfind "." n with
  | Some i =>
      if ((0 <? i)%nat && (i <? String.length n - 1)%nat)%bool
      then String.substring 0 i n
      else n
  | None => n
  end.

End Path.

(** ** The generator object *)

Record PyTestModuleGenerator : Type := mkGen {
  module : Path.t;
  tests_dir : Path.t;
  module_docstring : string;
  imports : gset string;
  lines : list string;
  indent : Z;
  current_cls : option string
}.

Definition linesep : string := String PyStr.newline "".
Definition tab : string := "    ".
Definition blankline : string := "".
Definition default_assert_code : string :=
  Eval cbv in "assert False, " +:+ String PyStr.quote "not implemented" +:+ String PyStr.quote "".
Definition triple_quote : string :=
  Eval cbv in String PyStr.quote (String PyStr.quote (String PyStr.quote "")).
Definition default_docstring : string :=
  Eval cbv in triple_quote +:+ "Should ..." +:+ triple_quote.
Definition tests_dir_name : string := "tests".

(** [__init__] *)
Definition init (m : Path.t) : PyTestModuleGenerator :=
  {| module := m;
     tests_dir := Path.div (Path.parent m) tests_dir_name;
     module_docstring := "";
     imports := ∅;
     lines := [];
     indent := 0;
     current_cls := None |}.

Definition set_module_docstring (d : string) (g : PyTestModuleGenerator) :=
  mkGen (module g) (tests_dir g) d (imports g) (lines g) (indent g) (current_cls g).
Definition set_imports (i : gset string) (g : PyTestModuleGenerator) :=
  mkGen (module g) (tests_dir g) (module_docstring g) i (lines g) (indent g) (current_cls g).
Definition set_lines (l : list string) (g : PyTestModuleGenerator) :=
  mkGen (module g) (tests_dir g) (module_docstring g) (imports g) l (indent g) (current_cls g).
Definition set_indent (i : Z) (g : PyTestModuleGenerator) :=
  mkGen (module g) (tests_dir g) (module_docstring g) (imports g) (lines g) i (current_cls g).
Definition set_current_cls (c : option string) (g : PyTestModuleGenerator) :=
  mkGen (module g) (tests_dir g) (module_docstring g) (imports g) (lines g) (indent g) c.

(** [self.lines.extend(l)] and [self.lines.append(x)] *)
Definition lines_extend (l : list string) (g : PyTestModuleGenerator) :=
  set_lines (lines g ++ l) g.
Definition lines_append (x : string) (g : PyTestModuleGenerator) :=
  set_lines (lines g ++ [x]) g.

(** The property [code]. *)
Definition code (g : PyTestModuleGenerator) : string :=
  let ls := [module_docstring g] ++ elements (imports g)
            ++ List.repeat blankline 2 ++ lines g in
  PyStr.strip (PyStr.join linesep ls) +:+ linesep.

(** The text of each generated line. *)
Definition module_docstring_of (m : Path.t) : string :=
  triple_quote +:+ "Unit tests for " +:+ String PyStr.backtick (Path.name m)
    +:+ String PyStr.backtick triple_quote.
Definition def_line (i : Z) (name arg_self : string) : string :=
  PyStr.mul tab i +:+ "def test_" +:+ name +:+ "(" +:+ arg_self +:+ "):".
Definition async_def_line (i : Z) (name : string) : string :=
  PyStr.mul tab i +:+ "async def test_" +:+ name +:+ "():".
Definition async_mark_line (i : Z) : string :=
  PyStr.mul tab i +:+ "@pytest.mark.asyncio".
Definition docstring_line (i : Z) : string :=
  PyStr.mul tab (i + 1) +:+ default_docstring.
Definition assert_line (i : Z) : string :=
  PyStr.mul tab (i + 1) +:+ default_assert_code.
Definition clsdef_line (i : Z) (name : string) : string :=
  PyStr.mul tab i +:+ "class Test" +:+ name +:+ ":".
Definition cls_docstring (name : string) : string :=
  triple_quote +:+ "Tests for class " +:+ String PyStr.backtick name
    +:+ String PyStr.backtick triple_quote.
Definition cls_docstring_line (i : Z) (name : string) : string :=
  PyStr.mul tab (i + 1) +:+ cls_docstring name +:+ linesep.
Definition pass_line (i : Z) : string :=
  PyStr.mul tab i +:+ "pass".

(** [for _ in range(blanklines): self.lines.append(self.blankline)] *)
Definition append_blanklines (blanklines : nat) (g : PyTestModuleGenerator) :=
  Nat.iter blanklines (lines_append blankline) g.

(** [generic_visit] over the children, given the dispatcher. *)
Definition visit_children (visit : node -> PyTestModuleGenerator -> result PyTestModuleGenerator) :=
  fix go (cs : list node) (g : PyTestModuleGenerator) : result PyTestModuleGenerator :=
    match cs with
    | [] => Ok g
    | c :: cs' => g' ← visit c g; go cs' g'
    end.

(** [NodeVisitor.visit], with the four [visit_] methods of the class inlined
    in its branches. *)
Fixpoint visit (n : node) (g : PyTestModuleGenerator) {struct n}
  : result PyTestModuleGenerator :=
  match n with
  | Module body =>
      let g := set_module_docstring (module_docstring_of (module g)) g in
      let g := set_imports ({["import pytest"]} ∪ imports g) g in
      visit_children visit body g
  | FunctionDef name body =>
      let arg_self := match current_cls g with Some _ => "self" | None => "" end in
      let blanklines := match current_cls g with None => 2%nat | Some _ => 1%nat end in
      let g := lines_extend [def_line (indent g) name arg_self;
                             docstring_line (indent g);
                             assert_line (indent g)] g in
      let g := append_blanklines blanklines g in
      visit_children visit body g
  | ClassDef name body =>
      let clsdef := clsdef_line (indent g) name in
      let g := lines_extend [clsdef; cls_docstring_line (indent g) name] g in
      let g := set_indent (indent g + 1) g in
      let g := set_current_cls (Some name) g in
      g ← visit_children visit body g;
      let g := set_current_cls None g in
      l ← getitem_neg (lines g) 2;
      let g := if String.eqb l clsdef
               then lines_extend [pass_line (indent g); blankline] g
               else g in
      let g := set_indent (indent g - 1) g in
      Ok (lines_append blankline g)
  | AsyncFunctionDef name body =>
      let blanklines := match current_cls g with None => 2%nat | Some _ => 1%nat end in
      let g := lines_extend [async_mark_line (indent g);
                             async_def_line (indent g) name;
                             docstring_line (indent g);
                             assert_line (indent g)] g in
      let g := append_blanklines blanklines g in
      visit_children visit body g
  | Other children => visit_children visit children g
  end.

Definition generic_visit : list node -> PyTestModuleGenerator -> result PyTestModuleGenerator :=
  visit_children visit.

(** ** The file system, the writer and the loop over the modules *)

(** What a path leads to: a file whose bytes are the encoding of a text, a
    directory, or a file whose bytes are the encoding of no text. *)
Inductive entry : Type :=
| File (content : string)
| Dir
| RawFile (bytes : list ascii).

(** What the program acts on: the files under their paths, and the lines
    printed so far. *)
Record World : Type := mkWorld {
  files : gmap (list string) entry;
  stdout : list string
}.

(** A command returns or raises, and leaves a world behind either way. *)
Definition IO (A : Type) : Type := World -> result A * World.

#[global] Instance io_ret : MRet IO := fun A a w => (Ok a, w).
#[global] Instance io_bind : MBind IO := fun A B k c w =>
  match c w with
  | (Ok a, w') => k a w'
  | (Raise e, w') => (Raise e, w')
  end.

Definition raise {A : Type} (e : exn) : IO A := fun w => (Raise e, w).

Definition set_files (f : gmap (list string) entry) (w : World) : World :=
  mkWorld f (stdout w).

(** [click.echo] *)
Definition echo (msg : string) : IO unit :=
  fun w => (Ok tt, mkWorld (files w) (stdout w ++ [msg])).

(** [p.is_dir()] *)
Definition is_dir (p : Path.t) : IO bool :=
  fun w => (Ok (match files w !! p with Some Dir => true | _ => false end), w).

(** [p.read_text()] *)
Definition read_text (p : Path.t) : IO string :=
  fun w =>
    match files w !! p with
    | Some (File content) => (Ok content, w)
    | Some (RawFile _) => (Raise UnicodeDecodeError, w)
    | Some Dir => (Raise IsADirectoryError, w)
    | None => (Raise FileNotFoundError, w)
    end.

(** Creating an entry needs the parent directory. *)
Definition create (p : Path.t) (e : entry) : IO unit :=
  fun w =>
    match files w !! Path.parent p with
    | Some Dir => (Ok tt, set_files (<[p := e]> (files w)) w)
    | Some (File _) | Some (RawFile _) => (Raise NotADirectoryError, w)
    | None => (Raise FileNotFoundError, w)
    end.

(** [p.mkdir(exist_ok=True)] *)
Definition mkdir_exist_ok (p : Path.t) : IO unit :=
  fun w =>
    match files w !! p with
    | Some Dir => (Ok tt, w)
    | Some (File _) | Some (RawFile _) => (Raise FileExistsError, w)
    | None => create p Dir w
    end.

(** [p.touch(exist_ok=True)]: an entry that exists keeps its content. *)
Definition touch_exist_ok (p : Path.t) : IO unit :=
  fun w =>
    match files w !! p with
    | Some _ => (Ok tt, w)
    | None => create p (File "") w
    end.

(** [p.write_text(data)] *)
Definition write_text (p : Path.t) (data : string) : IO unit :=
  fun w =>
    match files w !! p with
    | Some Dir => (Raise IsADirectoryError, w)
    | Some (File _) | Some (RawFile _) =>
        (Ok tt, set_files (<[p := File data]> (files w)) w)
    | None => create p (File data) w
    end.

Definition conftest_path (g : PyTestModuleGenerator) : Path.t :=
  Path.div (tests_dir g) "conftest.py".

Definition test_module_path (g : PyTestModuleGenerator) : Path.t :=
  Path.div (tests_dir g) ("test_" +:+ Path.stem (module g) +:+ ".py").

(** The method [write]. *)
Definition write (g : PyTestModuleGenerator) : IO unit :=
  _ ← mkdir_exist_ok (tests_dir g);
  _ ← touch_exist_ok (conftest_path g);
  write_text (test_module_path g) (code g).

Section Engine.

(** [ast.parse], which raises on a text that is no Python module. *)
Variable ast_parse : string -> result node.

(** The method [generate]. *)
Definition generate (g : PyTestModuleGenerator) : IO PyTestModuleGenerator :=
  text ← read_text (module g);
  match ast_parse text with
  | Raise e => raise e
  | Ok module_txt =>
      match visit module_txt g with
      | Raise e => raise e
      | Ok g' => mret g'
      end
  end.

(** [loop_modules] *)
Fixpoint loop_modules (modules : list Path.t) : IO unit :=
  match modules with
  | [] => mret tt
  | m :: rest =>
      d ← is_dir m;
      if d || PyStr.startswith (Path.name m) "_" then loop_modules rest
      else
        _ ← echo ("➔ Generating test boilerplate for " +:+ Path.name m);
        gen ← generate (init m);
        _ ← write gen;
        loop_modules rest
  end.

End Engine.

(** * The vocabulary of the statements *)

(** ** The visitor, piece by piece *)

Definition blanklines_for (c : option string) : nat :=
  match c with None => 2%nat | Some _ => 1%nat end.

Definition arg_self_for (c : option string) : string :=
  match c with Some _ => "self" | None => "" end.

(** What [visit_ClassDef] does once the children are done. *)
Definition leave_class (clsdef : string) (g : PyTestModuleGenerator)
  : result PyTestModuleGenerator :=
  let g := set_current_cls None g in
  l ← getitem_neg (lines g) 2;
  let g := if String.eqb l clsdef
           then lines_extend [pass_line (indent g); blankline] g
           else g in
  let g := set_indent (indent g - 1) g in
  Ok (lines_append blankline g).

(** ** The first and the last lines of a declaration *)

(** The line before the final blank one: blank itself, or the assertion of
    a placeholder body. *)
Definition closing (x : string) : Prop :=
  x = blankline \/ exists k, x = assert_line k.

(** The first line of a declaration's output. *)
Definition opening (i : Z) (c : option string) (l : string) : Prop :=
  (exists name, l = def_line i name (arg_self_for c))
  \/ l = async_mark_line i
  \/ (exists name, l = clsdef_line i name).

(** ** Which subtrees write lines *)

(** A subtree writes lines exactly when it holds a definition: nodes without
    a [visit_] method, and a module, write nothing themselves. *)
Fixpoint emits (n : node) : bool :=
  match n with
  | Module body => existsb emits body
  | Other children => existsb emits children
  | FunctionDef _ _ | AsyncFunctionDef _ _ | ClassDef _ _ => true
  end.

(** What one visit (or the visit of a list of siblings) does to the
    generator: it returns, it only appends, it leaves [indent] and the paths
    alone; when something was written, the output opens with a declaration
    line and closes with a blank line. *)
Definition shape (emitting : bool) (g g' : PyTestModuleGenerator) : Prop :=
  exists added,
    lines g' = lines g ++ added
    /\ indent g' = indent g
    /\ module g' = module g
    /\ tests_dir g' = tests_dir g
    /\ if emitting
       then (exists first rest,
                added = first :: rest /\ opening (indent g) (current_cls g) first)
            /\ (exists pre x, added = pre ++ [x; blankline] /\ closing x)
       else added = [] /\ current_cls g' = current_cls g.

Definition visit_ok (n : node) : Prop :=
  forall g, exists g', visit n g = Ok g' /\ shape (emits n) g g'.

(** ** White space and the lines of a text *)

(** A byte of a white space character: ASCII white space, or a byte of 128
    and above. A solid byte is any other: an ASCII character that is no
    white space. *)
Definition soft_byte (c : ascii) : bool :=
  let n := nat_of_ascii c in
  ((128 <=? n) || ((9 <=? n) && (n <=? 13)) || ((28 <=? n) && (n <=? 32)))%nat.

Fixpoint soft (s : string) : bool :=
  match s with
  | EmptyString => true
  | String c s' => soft_byte c && soft s'
  end.

Definition solid (c : ascii) : bool := negb (soft_byte c).

(** A text made of white space characters only. *)
Inductive whitespace : string -> Prop :=
| whitespace_nil : whitespace ""
| whitespace_cons (cp : N) (s : string) :
    In cp PyStr.unicode_whitespace -> whitespace s ->
    whitespace (PyStr.utf8 cp +:+ s).

Fixpoint last_byte (s : string) : option ascii :=
  match s with
  | EmptyString => None
  | String c s' => match last_byte s' with
                   | Some d => Some d
                   | None => Some c
                   end
  end.

(** A first line and the lines below it, each on a line of its own. *)
Definition lines_below (first : string) (rest : list string) : string :=
  first +:+ fold_right (fun l below => linesep +:+ l +:+ below) "" rest.

(** ** Reading the placeholders back *)

Inductive decl : Type :=
| DFunction (name : string)
| DAsync (name : string)
| DClass (name : string).

(** The definitions of a tree in source order: a node before its children,
    the children from first to last. *)
Fixpoint declarations (n : node) : list decl :=
  match n with
  | Module body => flat_map declarations body
  | FunctionDef name body => DFunction name :: flat_map declarations body
  | AsyncFunctionDef name body => DAsync name :: flat_map declarations body
  | ClassDef name body => DClass name :: flat_map declarations body
  | Other children => flat_map declarations children
  end.

(** Reading a line of the output back: the declaration it opens, if any. *)
Definition read_placeholder (l : string) : option decl :=
  let s := PyStr.lstrip l in
  match strip_prefix "def test_" s with
  | Some r =>
      match strip_suffix "(self):" r with
      | Some name => Some (DFunction name)
      | None => option_map DFunction (strip_suffix "():" r)
      end
  | None =>
      match strip_prefix "async def test_" s with
      | Some r => option_map DAsync (strip_suffix "():" r)
      | None =>
          match strip_prefix "class Test" s with
          | Some r => option_map DClass (strip_suffix ":" r)
          | None => None
          end
      end
  end.

Definition placeholders (ls : list string) : list decl := omap read_placeholder ls.

Definition in_order (n : node) : Prop :=
  forall g, exists g',
    visit n g = Ok g'
    /\ placeholders (lines g') = placeholders (lines g) ++ declarations n.

(** ** Worlds *)

(** A command that touches the entry under [p] at most. *)
Definition only_changes (p : Path.t) (w w' : World) : Prop :=
  (forall q, q <> p -> files w' !! q = files w !! q) /\ stdout w' = stdout w.

(** A source directory with a module that parses and one that does not. *)
Definition demo_world : World :=
  mkWorld (<[ ["src"] := Dir ]>
             (<[ ["src"; "a.py"] := File "def f(): pass" ]>
                (<[ ["src"; "b.py"] := File "def (" ]> ∅)))
          [].

(** A stand-in for the parser: one text it accepts, with its tree. *)
Definition sample_parse (text : string) : result node :=
  if String.eqb text "def f(): pass"
  then Ok (Module [FunctionDef "f" [Other []]])
  else Raise (ParseError "invalid syntax").

(** ** Trees and lines by what they hold *)

(** A class definition somewhere in the subtree. *)
Fixpoint has_class (n : node) : bool :=
  match n with
  | ClassDef _ _ => true
  | Module body => existsb has_class body
  | FunctionDef _ body => existsb has_class body
  | AsyncFunctionDef _ body => existsb has_class body
  | Other children => existsb has_class children
  end.

(** A module node somewhere in the subtree. *)
Fixpoint has_module (n : node) : bool :=
  match n with
  | Module _ => true
  | FunctionDef _ body => existsb has_module body
  | AsyncFunctionDef _ body => existsb has_module body
  | ClassDef _ body => existsb has_module body
  | Other children => existsb has_module children
  end.

(** A line that is blank or starts with [i] levels of indentation. *)
Definition indented_at_least (i : Z) (l : string) : Prop :=
  l = blankline \/ exists r, l = PyStr.mul tab i +:+ r.

(** The lines of one placeholder test with the blank lines after it. *)
Definition placeholder_block (i : Z) (c : option string) (name : string)
  : list string :=
  [def_line i name (arg_self_for c); docstring_line i; assert_line i]
  ++ List.repeat blankline (blanklines_for c).

(** Function definitions given by their names and their children. *)
Definition functions (ms : list (string * list node)) : list node :=
  map (fun m => FunctionDef (fst m) (snd m)) ms.

(** A path the loop passes over. *)
Definition skipped (w : World) (m : Path.t) : Prop :=
  files w !! m = Some Dir \/ PyStr.startswith (Path.name m) "_" = true.

Definition cls_after (n : node) : Prop :=
  forall g, exists g',
    visit n g = Ok g'
    /\ current_cls g' = if has_class n then None else current_cls g.

Definition header_after (n : node) : Prop :=
  forall g, exists g',
    visit n g = Ok g'
    /\ module g' = module g
    /\ imports g' = (if has_module n then {["import pytest"]} ∪ imports g
                    else imports g)
    /\ module_docstring g' = (if has_module n then module_docstring_of (module g)
                             else module_docstring g).

Definition indented_visit (n : node) : Prop :=
  forall g, exists g' added,
    visit n g = Ok g'
    /\ lines g' = lines g ++ added
    /\ indent g' = indent g
    /\ Forall (indented_at_least (indent g)) added.

(** When [write] can do its work: the directory of the tests is there or
    can be made, and no directory sits where the test module goes. *)
Definition write_ready (g : PyTestModuleGenerator) (w : World) : Prop :=
  (files w !! tests_dir g = Some Dir
   \/ (files w !! tests_dir g = None
       /\ files w !! Path.parent (tests_dir g) = Some Dir))
  /\ files w !! test_module_path g <> Some Dir.

(** A world where a directory sits at the path of the test module. *)
Definition blocked_world : World :=
  mkWorld (<[ ["src"] := Dir ]>
             (<[ ["src"; "a.py"] := File "def f(): pass" ]>
                (<[ ["src"; "tests"] := Dir ]>
                   (<[ ["src"; "tests"; "test_a.py"] := Dir ]> ∅))))
          [].

(** * Basic facts *)

(** ** Strings *)

Lemma append_nil_l (a : string) : "" +:+ a = a.
Proof. reflexivity. Qed.

Lemma append_cons (x : ascii) (a b : string) :
  String x a +:+ b = String x (a +:+ b).
Proof. reflexivity. Qed.

Lemma append_assoc (a b c : string) : (a +:+ b) +:+ c = a +:+ (b +:+ c).
Proof.
  induction a as [|x a IH]; [reflexivity|].
  now rewrite !append_cons, IH.
Qed.

Lemma append_nil_r (a : string) : a +:+ "" = a.
Proof.
  induction a as [|x a IH]; [reflexivity|].
  now rewrite append_cons, IH.
Qed.

Lemma append_length (a b : string) :
  String.length (a +:+ b) = (String.length a + String.length b)%nat.
Proof.
  induction a as [|x a IH]; [reflexivity|].
  rewrite append_cons. simpl. now rewrite IH.
Qed.

Lemma strip_prefix_app (p r : string) : strip_prefix p (p +:+ r) = Some r.
Proof.
  induction p as [|a p IH]; [reflexivity|].
  rewrite append_cons. simpl. now rewrite Ascii.eqb_refl.
Qed.

Lemma strip_prefix_cons (a b : ascii) (p s : string) :
  strip_prefix (String a p) (String b s)
  = if Ascii.eqb a b then strip_prefix p s else None.
Proof. reflexivity. Qed.

Lemma eqb_length (a b : string) :
  String.eqb a b = true -> String.length a = String.length b.
Proof. intros H. apply String.eqb_eq in H. now subst. Qed.

Lemma strip_suffix_eq (suf s : string) :
  strip_suffix suf s =
  if String.eqb s suf then Some ""
  else match s with
       | EmptyString => None
       | String c s' => option_map (String c) (strip_suffix suf s')
       end.
Proof. destruct s; reflexivity. Qed.

Lemma strip_suffix_app (suf s : string) : strip_suffix suf (s +:+ suf) = Some s.
Proof.
  induction s as [|c s IH].
  - now rewrite append_nil_l, strip_suffix_eq, String.eqb_refl.
  - rewrite append_cons, strip_suffix_eq, IH.
    destruct (String.eqb (String c (s +:+ suf)) suf) eqn:E; [|reflexivity].
    apply eqb_length in E. simpl in E. rewrite append_length in E. lia.
Qed.

Lemma append_inj_r (a b x y : string) :
  String.length a = String.length b -> a +:+ x = b +:+ y -> x = y.
Proof.
  revert b. induction a as [|c a IH]; intros [|d b]; try discriminate.
  - intros _ H. exact H.
  - intros Hl. rewrite !append_cons. intros [= _ H].
    apply (IH b); [simpl in Hl; lia | exact H].
Qed.

Lemma strip_suffix_self_none (name : string) :
  strip_suffix "(self):" (name +:+ "():") = None.
Proof.
  induction name as [|c name IH]; [reflexivity|].
  rewrite append_cons, strip_suffix_eq, IH.
  destruct (String.eqb (String c (name +:+ "():")) "(self):") eqn:E; [|reflexivity].
  apply String.eqb_eq in E.
  assert (Hl : String.length (String c name) = String.length "(sel").
  { apply (f_equal String.length) in E. simpl in E.
    rewrite append_length in E. simpl in *. lia. }
  rewrite <- append_cons in E.
  now apply (append_inj_r (String c name) "(sel" "():" "f):" Hl) in E.
Qed.

Lemma strip_prefix_Some (p s r : string) :
  strip_prefix p s = Some r -> s = p +:+ r.
Proof.
  revert s. induction p as [|a p IH]; intros s; simpl.
  - now intros [= ->].
  - destruct s as [|b s]; [discriminate|].
    destruct (Ascii.eqb_spec a b) as [->|]; [|discriminate].
    intros H. rewrite append_cons. f_equal. now apply IH.
Qed.

Lemma strip_suffix_Some (suf s r : string) :
  strip_suffix suf s = Some r -> s = r +:+ suf.
Proof.
  revert r. induction s as [|c s IH]; intros r; rewrite strip_suffix_eq.
  - destruct (String.eqb_spec "" suf) as [<-|]; [|discriminate].
    now intros [= <-].
  - destruct (String.eqb_spec (String c s) suf) as [<-|].
    + now intros [= <-].
    + destruct (strip_suffix suf s) as [r0|]; [|discriminate].
      simpl. intros [= <-]. rewrite append_cons. f_equal. now apply IH.
Qed.

Lemma append_inj_l (a b x : string) : a +:+ x = b +:+ x -> a = b.
Proof.
  revert b. induction a as [|c a IH]; intros [|d b] H.
  - reflexivity.
  - apply (f_equal String.length) in H. rewrite !append_length in H.
    simpl in H. lia.
  - apply (f_equal String.length) in H. rewrite !append_length in H.
    simpl in H. lia.
  - rewrite !append_cons in H. injection H as -> H. f_equal. now apply IH.
Qed.

Lemma append_inv_head (a x y : string) : a +:+ x = a +:+ y -> x = y.
Proof. now apply append_inj_r. Qed.

Lemma string_length_ind (P : string -> Prop) :
  (forall s, (forall t, (String.length t < String.length s)%nat -> P t) -> P s) ->
  forall s, P s.
Proof.
  intros H s. remember (String.length s) as n eqn:Hn. revert s Hn.
  induction n as [n IH] using lt_wf_ind. intros s ->.
  apply H. intros t Ht. now apply (IH (String.length t)).
Qed.

Ltac str_norm :=
  repeat (rewrite append_assoc || rewrite append_cons || rewrite append_nil_l).

(** ** Results *)

Lemma bind_Ok {A B : Type} (r : result A) (k : A -> result B) (b : B) :
  (r ≫= k) = Ok b -> exists a, r = Ok a /\ k a = Ok b.
Proof. destruct r as [a|e]; simpl; [eauto | discriminate]. Qed.

Lemma getitem_neg_snoc2 {A : Type} (l : list A) (x y : A) :
  getitem_neg (l ++ [x; y]) 2 = Ok x.
Proof.
  unfold getitem_neg. rewrite length_app. simpl length.
  replace (2 <=? length l + 2)%nat with true by (symmetry; apply Nat.leb_le; lia).
  replace (length l + 2 - 2)%nat with (length l) by lia.
  now rewrite (list_lookup_middle l [y] x (length l) eq_refl).
Qed.

Lemma getitem_neg_in_bounds {A : Type} (l : list A) :
  (2 <= length l)%nat -> exists x, getitem_neg l 2 = Ok x.
Proof.
  intros H. unfold getitem_neg.
  replace (2 <=? length l)%nat with true by (symmetry; apply Nat.leb_le; lia).
  destruct (lookup_lt_is_Some_2 l (length l - 2)%nat) as [x Hx]; [lia|].
  rewrite Hx. eauto.
Qed.

(** ** Induction on syntax trees *)

Lemma node_tree_ind (P : node -> Prop) :
  (forall body, Forall P body -> P (Module body)) ->
  (forall name body, Forall P body -> P (FunctionDef name body)) ->
  (forall name body, Forall P body -> P (AsyncFunctionDef name body)) ->
  (forall name body, Forall P body -> P (ClassDef name body)) ->
  (forall children, Forall P children -> P (Other children)) ->
  forall n, P n.
Proof.
  intros HM HF HA HC HO. fix IH 1.
  intros [b|nm b|nm b|nm b|b];
    [apply HM | apply HF | apply HA | apply HC | apply HO];
    (induction b as [|c b IHb]; constructor; [apply IH | apply IHb]).
Qed.

(** ** The equations of the visitor *)

Lemma generic_visit_nil g : generic_visit [] g = Ok g.
Proof. reflexivity. Qed.

Lemma generic_visit_cons c cs g :
  generic_visit (c :: cs) g = (g' ← visit c g; generic_visit cs g').
Proof. reflexivity. Qed.

Lemma visit_Module body g :
  visit (Module body) g =
  generic_visit body
    (set_imports ({["import pytest"]} ∪ imports g)
       (set_module_docstring (module_docstring_of (module g)) g)).
Proof. reflexivity. Qed.

Lemma visit_Other children g :
  visit (Other children) g = generic_visit children g.
Proof. reflexivity. Qed.

Lemma visit_FunctionDef name body g :
  visit (FunctionDef name body) g =
  generic_visit body
    (append_blanklines (blanklines_for (current_cls g))
       (lines_extend [def_line (indent g) name (arg_self_for (current_cls g));
                      docstring_line (indent g);
                      assert_line (indent g)] g)).
Proof. destruct g as [? ? ? ? ? ? [c|]]; reflexivity. Qed.

Lemma visit_AsyncFunctionDef name body g :
  visit (AsyncFunctionDef name body) g =
  generic_visit body
    (append_blanklines (blanklines_for (current_cls g))
       (lines_extend [async_mark_line (indent g);
                      async_def_line (indent g) name;
                      docstring_line (indent g);
                      assert_line (indent g)] g)).
Proof. destruct g as [? ? ? ? ? ? [c|]]; reflexivity. Qed.

Lemma visit_ClassDef name body g :
  visit (ClassDef name body) g =
  (g' ← generic_visit body
          (set_current_cls (Some name)
             (set_indent (indent g + 1)
                (lines_extend [clsdef_line (indent g) name;
                               cls_docstring_line (indent g) name] g)));
   leave_class (clsdef_line (indent g) name) g').
Proof. reflexivity. Qed.

Lemma lines_append_blanklines k g :
  lines (append_blanklines k g) = lines g ++ List.repeat blankline k.
Proof.
  induction k as [|k IH]; simpl.
  - now rewrite app_nil_r.
  - rewrite IH, <- app_assoc. f_equal.
    change (List.repeat blankline k ++ [blankline])
      with (List.repeat blankline k ++ List.repeat blankline 1).
    rewrite <- repeat_app. now replace (k + 1)%nat with (S k) by lia.
Qed.

Lemma indent_append_blanklines k g : indent (append_blanklines k g) = indent g.
Proof. induction k as [|k IH]; simpl; [reflexivity | exact IH]. Qed.

Lemma current_cls_append_blanklines k g :
  current_cls (append_blanklines k g) = current_cls g.
Proof. induction k as [|k IH]; simpl; [reflexivity | exact IH]. Qed.

Lemma module_append_blanklines k g : module (append_blanklines k g) = module g.
Proof. induction k as [|k IH]; simpl; [reflexivity | exact IH]. Qed.

Lemma tests_dir_append_blanklines k g :
  tests_dir (append_blanklines k g) = tests_dir g.
Proof. induction k as [|k IH]; simpl; [reflexivity | exact IH]. Qed.

(** ** Indentation never hides the first character of a line *)

Lemma repeat_tab_S (k : nat) (s : string) :
  PyStr.repeat tab (S k) +:+ s
  = String PyStr.space (String PyStr.space (String PyStr.space
      (String PyStr.space (PyStr.repeat tab k +:+ s)))).
Proof. reflexivity. Qed.

Lemma indented_neq (a b : nat) (c d : ascii) (s t : string) :
  c <> d -> c <> PyStr.space -> d <> PyStr.space ->
  PyStr.repeat tab a +:+ String c s <> PyStr.repeat tab b +:+ String d t.
Proof.
  intros Hcd Hc Hd. revert b.
  induction a as [|a IH]; intros [|b].
  - intros H. injection H as H _. contradiction.
  - rewrite repeat_tab_S. intros H. injection H as H _. contradiction.
  - rewrite repeat_tab_S. intros H. injection H as H _. now apply Hd.
  - rewrite !repeat_tab_S. intros H. injection H as H. now apply (IH b).
Qed.

Lemma indented_nonempty (a : nat) (c : ascii) (s : string) :
  PyStr.repeat tab a +:+ String c s <> "".
Proof. destruct a; [|rewrite repeat_tab_S]; discriminate. Qed.

(** ** The last two lines of a declaration's output *)

Lemma closing_not_clsdef (x : string) (i : Z) (name : string) :
  closing x -> String.eqb x (clsdef_line i name) = false.
Proof.
  intros Hx. apply String.eqb_neq. intros E.
  unfold clsdef_line, PyStr.mul in E.
  change ("class Test" +:+ name +:+ ":")
    with (String "c" ("lass Test" +:+ name +:+ ":")) in E.
  destruct Hx as [->|[k ->]].
  - symmetry in E. now apply indented_nonempty in E.
  - unfold assert_line, PyStr.mul, default_assert_code in E.
    revert E. apply indented_neq; discriminate.
Qed.

Lemma leave_class_empty (clsdef : string) (g : PyTestModuleGenerator) l d :
  lines g = l ++ [clsdef; d] ->
  leave_class clsdef g =
  Ok (lines_append blankline
        (set_indent (indent g - 1)
           (lines_extend [pass_line (indent g); blankline]
              (set_current_cls None g)))).
Proof.
  intros Hl. unfold leave_class. simpl lines. rewrite Hl, getitem_neg_snoc2.
  simpl. now rewrite String.eqb_refl.
Qed.

Lemma leave_class_nonempty (clsdef : string) (g : PyTestModuleGenerator) l x y :
  lines g = l ++ [x; y] ->
  String.eqb x clsdef = false ->
  leave_class clsdef g =
  Ok (lines_append blankline (set_indent (indent g - 1) (set_current_cls None g))).
Proof.
  intros Hl Hx. unfold leave_class. simpl lines. rewrite Hl, getitem_neg_snoc2.
  simpl. now rewrite Hx.
Qed.

(** ** The shape of a visit *)

Lemma generic_visit_shape_of (cs : list node) :
  Forall visit_ok cs ->
  forall g, exists g', generic_visit cs g = Ok g' /\ shape (existsb emits cs) g g'.
Proof.
  induction 1 as [|c cs Hc _ IH]; intros g.
  - exists g. split; [reflexivity|]. exists []. rewrite app_nil_r. simpl. tauto.
  - destruct (Hc g) as (g1 & E1 & a1 & L1 & I1 & M1 & T1 & S1).
    destruct (IH g1) as (g2 & E2 & a2 & L2 & I2 & M2 & T2 & S2).
    exists g2. rewrite generic_visit_cons, E1. split; [exact E2|].
    exists (a1 ++ a2). rewrite L2, L1, <- app_assoc.
    repeat split; try congruence.
    simpl existsb. destruct (emits c), (existsb emits cs); simpl.
    + destruct S1 as [(f & r & -> & Hf) _], S2 as [_ (p & x & -> & Hx)].
      split; [exists f, (r ++ p ++ [x; blankline]); now split|].
      exists ((f :: r) ++ p), x. now rewrite <- app_assoc.
    + destruct S2 as [-> _]. now rewrite app_nil_r.
    + destruct S1 as [-> C1]. simpl. now rewrite I1, C1 in S2.
    + destruct S1 as [-> C1], S2 as [-> C2]. split; [reflexivity|congruence].
Qed.

Lemma closing_blankline : closing blankline.
Proof. now left. Qed.

Lemma closing_assert_line k : closing (assert_line k).
Proof. right. now exists k. Qed.

#[local] Hint Resolve closing_blankline closing_assert_line : core.

(** The tail of a placeholder test written with nothing after it. *)
Lemma placeholder_tail (c : option string) (hd : list string) (k : Z) :
  exists pre x,
    hd ++ [assert_line k] ++ List.repeat blankline (blanklines_for c)
    = pre ++ [x; blankline] /\ closing x.
Proof.
  destruct c as [c|]; simpl.
  - exists hd, (assert_line k). auto.
  - exists (hd ++ [assert_line k]), blankline. rewrite <- app_assoc. auto.
Qed.

Lemma visit_shape (n : node) : visit_ok n.
Proof.
  induction n as [body Hb|name body Hb|name body Hb|name body Hb|cs Hb]
    using node_tree_ind; intros g.
  - (* Module *)
    rewrite visit_Module.
    destruct (generic_visit_shape_of body Hb
                (set_imports ({["import pytest"]} ∪ imports g)
                   (set_module_docstring (module_docstring_of (module g)) g)))
      as (g' & E & a & L & I & M & T & S).
    exists g'. split; [exact E|]. exists a. simpl in *. auto.
  - (* FunctionDef *)
    rewrite visit_FunctionDef.
    match goal with |- context [generic_visit body ?g0] =>
      destruct (generic_visit_shape_of body Hb g0) as (g' & E & a & L & I & M & T & S)
    end.
    exists g'. split; [exact E|].
    rewrite lines_append_blanklines in L.
    rewrite indent_append_blanklines in I.
    rewrite module_append_blanklines in M.
    rewrite tests_dir_append_blanklines in T.
    rewrite indent_append_blanklines, current_cls_append_blanklines in S.
    simpl in L, I, M, T, S.
    exists ([def_line (indent g) name (arg_self_for (current_cls g));
             docstring_line (indent g); assert_line (indent g)]
            ++ List.repeat blankline (blanklines_for (current_cls g)) ++ a).
    rewrite L, <- !app_assoc. repeat split; auto.
    + eexists _, _. split; [reflexivity|]. left. now exists name.
    + destruct (existsb emits body).
      * destruct S as [_ (p & x & -> & Hx)].
        eexists (_ :: _ :: _ :: List.repeat _ _ ++ p), x. split; [|exact Hx].
        simpl. now rewrite <- app_assoc.
      * destruct S as [-> _]. rewrite app_nil_r.
        apply (placeholder_tail (current_cls g)
                 [def_line (indent g) name (arg_self_for (current_cls g));
                  docstring_line (indent g)]).
  - (* AsyncFunctionDef *)
    rewrite visit_AsyncFunctionDef.
    match goal with |- context [generic_visit body ?g0] =>
      destruct (generic_visit_shape_of body Hb g0) as (g' & E & a & L & I & M & T & S)
    end.
    exists g'. split; [exact E|].
    rewrite lines_append_blanklines in L.
    rewrite indent_append_blanklines in I.
    rewrite module_append_blanklines in M.
    rewrite tests_dir_append_blanklines in T.
    rewrite indent_append_blanklines, current_cls_append_blanklines in S.
    simpl in L, I, M, T, S.
    exists ([async_mark_line (indent g); async_def_line (indent g) name;
             docstring_line (indent g); assert_line (indent g)]
            ++ List.repeat blankline (blanklines_for (current_cls g)) ++ a).
    rewrite L, <- !app_assoc. repeat split; auto.
    + eexists _, _. split; [reflexivity|]. right. now left.
    + destruct (existsb emits body).
      * destruct S as [_ (p & x & -> & Hx)].
        eexists (_ :: _ :: _ :: _ :: List.repeat _ _ ++ p), x. split; [|exact Hx].
        simpl. now rewrite <- app_assoc.
      * destruct S as [-> _]. rewrite app_nil_r.
        apply (placeholder_tail (current_cls g)
                 [async_mark_line (indent g); async_def_line (indent g) name;
                  docstring_line (indent g)]).
  - (* ClassDef *)
    rewrite visit_ClassDef.
    match goal with |- context [generic_visit body ?g0] =>
      destruct (generic_visit_shape_of body Hb g0) as (g4 & E & a & L & I & M & T & S)
    end.
    rewrite E. simpl in L, I, M, T, S. simpl mbind.
    destruct (existsb emits body).
    + destruct S as [_ (p & x & -> & Hx)].
      rewrite (leave_class_nonempty _ g4
                 ((lines g ++ [clsdef_line (indent g) name;
                               cls_docstring_line (indent g) name]) ++ p)
                 x blankline);
        [| now rewrite L, <- !app_assoc | now apply closing_not_clsdef ].
      eexists. split; [reflexivity|].
      exists ([clsdef_line (indent g) name; cls_docstring_line (indent g) name]
              ++ (p ++ [x; blankline]) ++ [blankline]).
      simpl. rewrite L, <- !app_assoc. repeat split; auto; try lia.
      * eexists _, _. split; [reflexivity|]. right. right. now exists name.
      * exists (clsdef_line (indent g) name :: cls_docstring_line (indent g) name
                  :: p ++ [x]), blankline.
        split; [|auto]. simpl. now rewrite <- !app_assoc.
    + destruct S as [-> _]. rewrite app_nil_r in L.
      rewrite (leave_class_empty _ g4 (lines g) (cls_docstring_line (indent g) name) L).
      eexists. split; [reflexivity|].
      exists [clsdef_line (indent g) name; cls_docstring_line (indent g) name;
              pass_line (indent g4); blankline; blankline].
      simpl. rewrite L, <- !app_assoc. repeat split; auto; try lia.
      * eexists _, _. split; [reflexivity|]. right. right. now exists name.
      * eexists [_; _; _], blankline. split; [reflexivity|auto].
  - (* Other *)
    rewrite visit_Other. apply (generic_visit_shape_of cs Hb g).
Qed.

Lemma generic_visit_shape (cs : list node) (g : PyTestModuleGenerator) :
  exists g', generic_visit cs g = Ok g' /\ shape (existsb emits cs) g g'.
Proof.
  apply generic_visit_shape_of, Forall_forall. intros n _. apply visit_shape.
Qed.

Lemma opening_nonblank (i : Z) (c : option string) (l : string) :
  opening i c l -> l <> blankline.
Proof.
  intros [[name ->]|[->|[name ->]]];
    unfold def_line, async_mark_line, clsdef_line, PyStr.mul;
    apply indented_nonempty.
Qed.

(** * The traversal *)

(** The lines of a class: its two opening lines, what its children write,
    [pass] and a blank line when they wrote nothing, the closing blank line.
    The visit puts [indent] back and leaves [current_cls] at [None]. *)
Lemma visit_ClassDef_lines (name : string) (body : list node) g :
  exists g4 added g',
    generic_visit body
      (set_current_cls (Some name)
         (set_indent (indent g + 1)
            (lines_extend [clsdef_line (indent g) name;
                           cls_docstring_line (indent g) name] g))) = Ok g4
    /\ lines g4 = lines g ++ [clsdef_line (indent g) name;
                              cls_docstring_line (indent g) name] ++ added
    /\ (if existsb emits body
        then exists first rest,
            added = first :: rest /\ opening (indent g + 1) (Some name) first
        else added = [])
    /\ visit (ClassDef name body) g = Ok g'
    /\ lines g' = lines g4
                  ++ (if existsb emits body then []
                      else [pass_line (indent g + 1); blankline])
                  ++ [blankline]
    /\ indent g' = indent g
    /\ current_cls g' = None.
Proof.
  rewrite visit_ClassDef.
  match goal with |- context [generic_visit body ?g0] =>
    destruct (generic_visit_shape body g0) as (g4 & E & a & L & I & _ & _ & S)
  end.
  exists g4, a. rewrite E. simpl in L, I, S. simpl mbind.
  rewrite <- app_assoc in L.
  destruct (existsb emits body).
  - destruct S as [Hfirst (p & x & -> & Hx)].
    rewrite (leave_class_nonempty _ g4
               ((lines g ++ [clsdef_line (indent g) name;
                             cls_docstring_line (indent g) name]) ++ p)
               x blankline);
      [| now rewrite L, <- !app_assoc | now apply closing_not_clsdef ].
    eexists. repeat split; try reflexivity; try assumption. simpl. lia.
  - destruct S as [-> _].
    assert (L' := L). rewrite app_nil_r in L'.
    rewrite (leave_class_empty _ g4 (lines g) (cls_docstring_line (indent g) name) L').
    eexists. repeat split; try reflexivity; try assumption.
    + simpl. rewrite I, <- app_assoc. reflexivity.
    + simpl. lia.
Qed.

(** C1 (the code at the failing input): a class nested in class [A] leaves
    [current_cls] at [None] instead of [Some "A"], although [indent] is put
    back; the method [m] that follows the nested class in [A] is then
    written as a top-level test, without [self] and with two blank lines
    after it. *)
Theorem nested_class_forgets_enclosing_class :
  let g := set_current_cls (Some "A") (set_indent 1 (init ["src"; "m.py"])) in
  (exists g', visit (ClassDef "B" []) g = Ok g'
              /\ indent g' = indent g
              /\ current_cls g = Some "A"
              /\ current_cls g' = None)
  /\ (exists g',
         visit (ClassDef "A" [ClassDef "B" []; FunctionDef "m" []])
           (init ["src"; "m.py"]) = Ok g'
         /\ lines g' =
            [clsdef_line 0 "A"; cls_docstring_line 0 "A";
             clsdef_line 1 "B"; cls_docstring_line 1 "B";
             pass_line 2; blankline; blankline;
             def_line 1 "m" ""; docstring_line 1; assert_line 1;
             blankline; blankline;
             blankline]).
Proof.
  split.
  - eexists. split; [vm_compute; reflexivity|]. repeat split.
  - eexists. split; [vm_compute; reflexivity|]. vm_compute. reflexivity.
Qed.

(** C2: a class none of whose children writes a line gets [pass], one level
    deeper than its declaration, and a blank line; a class with a member gets
    neither: after the lines of its children comes the closing blank line
    alone. *)
Theorem class_pass_placeholder (name : string) (body : list node) g :
  exists g4 added g',
    generic_visit body
      (set_current_cls (Some name)
         (set_indent (indent g + 1)
            (lines_extend [clsdef_line (indent g) name;
                           cls_docstring_line (indent g) name] g))) = Ok g4
    /\ lines g4 = lines g ++ [clsdef_line (indent g) name;
                              cls_docstring_line (indent g) name] ++ added
    /\ (added = [] <-> existsb emits body = false)
    /\ visit (ClassDef name body) g = Ok g'
    /\ lines g' = lines g4
                  ++ (if existsb emits body then []
                      else [PyStr.mul tab (indent g + 1) +:+ "pass"; blankline])
                  ++ [blankline].
Proof.
  destruct (visit_ClassDef_lines name body g) as (g4 & a & g' & E & L & S & V & L' & _).
  exists g4, a, g'. repeat split; try assumption.
  - intros ->. destruct (existsb emits body); [|reflexivity].
    now destruct S as (f & r & [=] & _).
  - intros Hb. now rewrite Hb in S.
Qed.

(** The lines of a function and of an async function: the placeholder,
    the blank lines, then what the nested definitions write. *)
Lemma visit_FunctionDef_lines (name : string) (body : list node) g :
  exists g' rest,
    visit (FunctionDef name body) g = Ok g'
    /\ lines g' = lines g
                  ++ [def_line (indent g) name (arg_self_for (current_cls g));
                      docstring_line (indent g); assert_line (indent g)]
                  ++ List.repeat blankline (blanklines_for (current_cls g)) ++ rest
    /\ head rest <> Some blankline.
Proof.
  rewrite visit_FunctionDef.
  match goal with |- context [generic_visit body ?g0] =>
    destruct (generic_visit_shape body g0) as (g' & E & a & L & _ & _ & _ & S)
  end.
  exists g', a. split; [exact E|].
  rewrite lines_append_blanklines in L. simpl in L.
  split; [now rewrite L, <- !app_assoc|].
  destruct (existsb emits body).
  - destruct S as [(f & r & -> & Hf) _]. simpl. intros [= ->].
    now apply opening_nonblank in Hf.
  - destruct S as [-> _]. discriminate.
Qed.

Lemma visit_AsyncFunctionDef_lines (name : string) (body : list node) g :
  exists g' rest,
    visit (AsyncFunctionDef name body) g = Ok g'
    /\ lines g' = lines g
                  ++ [async_mark_line (indent g); async_def_line (indent g) name;
                      docstring_line (indent g); assert_line (indent g)]
                  ++ List.repeat blankline (blanklines_for (current_cls g)) ++ rest
    /\ head rest <> Some blankline.
Proof.
  rewrite visit_AsyncFunctionDef.
  match goal with |- context [generic_visit body ?g0] =>
    destruct (generic_visit_shape body g0) as (g' & E & a & L & _ & _ & _ & S)
  end.
  exists g', a. split; [exact E|].
  rewrite lines_append_blanklines in L. simpl in L.
  split; [now rewrite L, <- !app_assoc|].
  destruct (existsb emits body).
  - destruct S as [(f & r & -> & Hf) _]. simpl. intros [= ->].
    now apply opening_nonblank in Hf.
  - destruct S as [-> _]. discriminate.
Qed.

(** C3: the body of a placeholder test is followed by two blank lines when
    [current_cls] is [None] and by one when it is set; what the nested
    definitions write after them does not start with a blank line. *)
Theorem blank_lines_after_placeholder (name : string) (body : list node) g :
  let blanklines := match current_cls g with None => 2%nat | Some _ => 1%nat end in
  (exists g' rest,
      visit (FunctionDef name body) g = Ok g'
      /\ lines g' = lines g
                    ++ [def_line (indent g) name (arg_self_for (current_cls g));
                        docstring_line (indent g); assert_line (indent g)]
                    ++ List.repeat blankline blanklines ++ rest
      /\ head rest <> Some blankline)
  /\ (exists g' rest,
      visit (AsyncFunctionDef name body) g = Ok g'
      /\ lines g' = lines g
                    ++ [async_mark_line (indent g); async_def_line (indent g) name;
                        docstring_line (indent g); assert_line (indent g)]
                    ++ List.repeat blankline blanklines ++ rest
      /\ head rest <> Some blankline).
Proof.
  split; [apply visit_FunctionDef_lines | apply visit_AsyncFunctionDef_lines].
Qed.


(** C9: a class visit appends its two lines before it recurses, the visits
    of the children return and only append, so the buffer holds at least two
    lines when [lines[-2]] is read: the read returns a line and the visit
    raises no [IndexError]. *)
Theorem empty_class_check_in_bounds (name : string) (body : list node) g :
  let g0 := lines_extend [clsdef_line (indent g) name;
                          cls_docstring_line (indent g) name] g in
  length (lines g0) = (length (lines g) + 2)%nat
  /\ exists g4 added l g',
      generic_visit body (set_current_cls (Some name) (set_indent (indent g + 1) g0))
      = Ok g4
      /\ lines g4 = lines g0 ++ added
      /\ (2 <= length (lines g4))%nat
      /\ getitem_neg (lines (set_current_cls None g4)) 2 = Ok l
      /\ visit (ClassDef name body) g = Ok g'.
Proof.
  intros g0. split; [unfold g0; simpl; now rewrite length_app|].
  destruct (generic_visit_shape body
              (set_current_cls (Some name) (set_indent (indent g + 1) g0)))
    as (g4 & E & a & L & _).
  simpl in L.
  assert (Hlen : (2 <= length (lines g4))%nat).
  { rewrite L, !length_app. simpl. lia. }
  destruct (getitem_neg_in_bounds (lines g4) Hlen) as [l Hl].
  destruct (visit_ClassDef_lines name body g) as (_ & _ & g' & _ & _ & _ & Hg' & _).
  exists g4, a, l, g'. repeat split; assumption.
Qed.

(** * The renderer *)

(** ** Stripping and joining *)

Lemma first_match_Some {A : Type} (f : N -> option A) (l : list N) (r : A) :
  fold_right (fun cp found => match f cp with
                              | Some r => Some r
                              | None => found
                              end) None l = Some r ->
  exists cp, In cp l /\ f cp = Some r.
Proof.
  induction l as [|cp l IH]; simpl; [discriminate|].
  destruct (f cp) as [r'|] eqn:E.
  - intros [= <-]. exists cp. auto.
  - intros H. destruct (IH H) as (cp' & Hin & Hf). exists cp'. auto.
Qed.

Lemma first_match_None {A : Type} (f : N -> option A) (l : list N) :
  fold_right (fun cp found => match f cp with
                              | Some r => Some r
                              | None => found
                              end) None l = None ->
  forall cp, In cp l -> f cp = None.
Proof.
  induction l as [|cp l IH]; simpl; [tauto|].
  destruct (f cp) as [r'|] eqn:E; [discriminate|].
  intros H cp' [<-|Hin]; [exact E | now apply IH].
Qed.

Lemma space_head_Some (s r : string) :
  PyStr.space_head s = Some r ->
  exists cp, In cp PyStr.unicode_whitespace /\ s = PyStr.utf8 cp +:+ r.
Proof.
  intros H.
  destruct (first_match_Some (fun cp => strip_prefix (PyStr.utf8 cp) s) _ _ H)
    as (cp & Hin & Hp).
  exists cp. split; [exact Hin | now apply strip_prefix_Some].
Qed.

Lemma space_head_None (s : string) :
  PyStr.space_head s = None ->
  forall cp r, In cp PyStr.unicode_whitespace -> s <> PyStr.utf8 cp +:+ r.
Proof.
  intros H cp r Hin ->.
  pose proof (first_match_None (fun cp => strip_prefix (PyStr.utf8 cp) _) _ H cp Hin)
    as Hp.
  simpl in Hp. now rewrite strip_prefix_app in Hp.
Qed.

Lemma space_last_Some (s r : string) :
  PyStr.space_last s = Some r ->
  exists cp, In cp PyStr.unicode_whitespace /\ s = r +:+ PyStr.utf8 cp.
Proof.
  intros H.
  destruct (first_match_Some (fun cp => strip_suffix (PyStr.utf8 cp) s) _ _ H)
    as (cp & Hin & Hp).
  exists cp. split; [exact Hin | now apply strip_suffix_Some].
Qed.

Lemma space_last_None (s : string) :
  PyStr.space_last s = None ->
  forall cp r, In cp PyStr.unicode_whitespace -> s <> r +:+ PyStr.utf8 cp.
Proof.
  intros H cp r Hin ->.
  pose proof (first_match_None (fun cp => strip_suffix (PyStr.utf8 cp) _) _ H cp Hin)
    as Hp.
  simpl in Hp. now rewrite strip_suffix_app in Hp.
Qed.

(** The encodings of the table: not empty, and made of bytes that are
    ASCII white space or above 127. *)
(** [isspace] decides the table of the white space characters. *)
Lemma isspace_table (cp : N) :
  PyStr.isspace cp = true <-> In cp PyStr.unicode_whitespace.
Proof.
  unfold PyStr.isspace. rewrite existsb_exists. split.
  - intros (x & Hin & E). apply N.eqb_eq in E. now subst x.
  - intros Hin. exists cp. split; [exact Hin | apply N.eqb_refl].
Qed.

Lemma whitespace_table (cp : N) :
  In cp PyStr.unicode_whitespace ->
  soft (PyStr.utf8 cp) = true /\ (0 < String.length (PyStr.utf8 cp))%nat.
Proof.
  intros Hin.
  assert (H : forallb (fun cp => soft (PyStr.utf8 cp)
                                 && (0 <? String.length (PyStr.utf8 cp))%nat)
                PyStr.unicode_whitespace = true) by (vm_compute; reflexivity).
  rewrite forallb_forall in H. specialize (H cp).
  apply andb_true_iff in H; [|exact Hin].
  destruct H as [H1 H2]. split; [exact H1 | now apply Nat.ltb_lt].
Qed.

Lemma space_head_shorter (s r : string) :
  PyStr.space_head s = Some r -> (String.length r < String.length s)%nat.
Proof.
  intros H. destruct (space_head_Some s r H) as (cp & Hin & ->).
  destruct (whitespace_table cp Hin) as [_ Hl].
  rewrite append_length. lia.
Qed.

Lemma space_last_shorter (s r : string) :
  PyStr.space_last s = Some r -> (String.length r < String.length s)%nat.
Proof.
  intros H. destruct (space_last_Some s r H) as (cp & Hin & ->).
  destruct (whitespace_table cp Hin) as [_ Hl].
  rewrite append_length. lia.
Qed.

Lemma lstrip_from_enough (n m : nat) (s : string) :
  (String.length s <= n)%nat -> (String.length s <= m)%nat ->
  PyStr.lstrip_from n s = PyStr.lstrip_from m s.
Proof.
  revert m s. induction n as [|n IH]; intros [|m] s Hn Hm; simpl;
    try reflexivity.
  - destruct s; [reflexivity | simpl in Hn; lia].
  - destruct s; [reflexivity | simpl in Hm; lia].
  - destruct (PyStr.space_head s) as [r|] eqn:E; [|reflexivity].
    apply space_head_shorter in E. apply IH; lia.
Qed.

Lemma rstrip_from_enough (n m : nat) (s : string) :
  (String.length s <= n)%nat -> (String.length s <= m)%nat ->
  PyStr.rstrip_from n s = PyStr.rstrip_from m s.
Proof.
  revert m s. induction n as [|n IH]; intros [|m] s Hn Hm; simpl;
    try reflexivity.
  - destruct s; [reflexivity | simpl in Hn; lia].
  - destruct s; [reflexivity | simpl in Hm; lia].
  - destruct (PyStr.space_last s) as [r|] eqn:E; [|reflexivity].
    apply space_last_shorter in E. apply IH; lia.
Qed.

(** The equations of [lstrip] and [rstrip]. *)
Lemma lstrip_eq (s : string) :
  PyStr.lstrip s = match PyStr.space_head s with
                   | Some r => PyStr.lstrip r
                   | None => s
                   end.
Proof.
  unfold PyStr.lstrip. destruct s as [|c s]; [reflexivity|].
  simpl String.length. simpl PyStr.lstrip_from.
  destruct (PyStr.space_head (String c s)) as [r|] eqn:E; [|reflexivity].
  apply space_head_shorter in E. simpl in E.
  apply lstrip_from_enough; lia.
Qed.

Lemma rstrip_eq (s : string) :
  PyStr.rstrip s = match PyStr.space_last s with
                   | Some r => PyStr.rstrip r
                   | None => s
                   end.
Proof.
  unfold PyStr.rstrip. destruct s as [|c s]; [reflexivity|].
  simpl String.length. simpl PyStr.rstrip_from.
  destruct (PyStr.space_last (String c s)) as [r|] eqn:E; [|reflexivity].
  apply space_last_shorter in E. simpl in E.
  apply rstrip_from_enough; lia.
Qed.

Lemma whitespace_app (a b : string) :
  whitespace a -> whitespace b -> whitespace (a +:+ b).
Proof.
  induction 1 as [|cp s Hin _ IH]; intros Hb; [exact Hb|].
  rewrite append_assoc. constructor; auto.
Qed.

Lemma whitespace_char (cp : N) :
  In cp PyStr.unicode_whitespace -> whitespace (PyStr.utf8 cp).
Proof.
  intros Hin. rewrite <- (append_nil_r (PyStr.utf8 cp)).
  constructor; [exact Hin | constructor].
Qed.

(** What [lstrip] and [rstrip] do: they take white space off one end, and
    what is left has none at that end. *)
Lemma lstrip_spec (s : string) :
  exists lead,
    whitespace lead /\ s = lead +:+ PyStr.lstrip s
    /\ PyStr.space_head (PyStr.lstrip s) = None.
Proof.
  induction s as [s IH] using string_length_ind.
  rewrite lstrip_eq. destruct (PyStr.space_head s) as [r|] eqn:E.
  - destruct (IH r (space_head_shorter s r E)) as (lead & Hw & Hr & Hn).
    destruct (space_head_Some s r E) as (cp & Hin & ->).
    exists (PyStr.utf8 cp +:+ lead). split; [now constructor|].
    split; [|exact Hn]. now rewrite append_assoc, <- Hr.
  - exists "". split; [constructor|]. now split.
Qed.

Lemma rstrip_spec (s : string) :
  exists trail,
    whitespace trail /\ s = PyStr.rstrip s +:+ trail
    /\ PyStr.space_last (PyStr.rstrip s) = None.
Proof.
  induction s as [s IH] using string_length_ind.
  rewrite rstrip_eq. destruct (PyStr.space_last s) as [r|] eqn:E.
  - destruct (IH r (space_last_shorter s r E)) as (trail & Hw & Hr & Hn).
    destruct (space_last_Some s r E) as (cp & Hin & ->).
    exists (trail +:+ PyStr.utf8 cp).
    split; [apply whitespace_app; [exact Hw | now apply whitespace_char]|].
    split; [|exact Hn]. now rewrite <- append_assoc, <- Hr.
  - exists "". split; [constructor|]. split; [now rewrite append_nil_r | exact E].
Qed.

(** ** Soft and solid bytes *)

Lemma soft_app (a b : string) : soft (a +:+ b) = soft a && soft b.
Proof.
  induction a as [|c a IH]; [reflexivity|].
  rewrite append_cons. simpl. now rewrite IH, andb_assoc.
Qed.

Lemma whitespace_soft (t : string) : whitespace t -> soft t = true.
Proof.
  induction 1 as [|cp s Hin _ IH]; [reflexivity|].
  rewrite soft_app, IH. now destruct (whitespace_table cp Hin) as [-> _].
Qed.

Lemma solid_not_soft (c : ascii) : solid c = true -> soft_byte c = false.
Proof. unfold solid. now destruct (soft_byte c). Qed.

(** White space at the end of a text stops before a solid byte. *)
Lemma fit_right (t : string) (d : ascii) (x y z : string) :
  soft t = true -> solid d = true ->
  x +:+ String d y = z +:+ t -> exists y', y = y' +:+ t.
Proof.
  intros Ht Hd. apply solid_not_soft in Hd. revert x.
  induction z as [|e z IH]; intros x H.
  - rewrite append_nil_l in H. subst t. rewrite soft_app in Ht.
    simpl in Ht. rewrite Hd in Ht. simpl in Ht.
    now rewrite andb_false_r in Ht.
  - destruct x as [|e' x].
    + rewrite append_nil_l, append_cons in H. injection H as _ H. now exists z.
    + rewrite !append_cons in H. injection H as _ H. now apply (IH x).
Qed.

(** White space at the start of a text stops before a solid byte. *)
Lemma fit_left (lead : string) (c : ascii) (t a rest : string) :
  soft lead = true -> solid c = true ->
  lead +:+ t = a +:+ String c rest -> exists a', a = lead +:+ a'.
Proof.
  intros Hl Hc. apply solid_not_soft in Hc. revert a.
  induction lead as [|e lead IH]; intros a H.
  - now exists a.
  - simpl in Hl. apply andb_true_iff in Hl. destruct Hl as [He Hl].
    destruct a as [|e' a].
    + rewrite append_nil_l, append_cons in H. injection H as -> _. congruence.
    + rewrite !append_cons in H. injection H as -> H.
      destruct (IH Hl a H) as [a' ->]. now exists a'.
Qed.

Lemma space_head_solid (c : ascii) (s : string) :
  solid c = true -> PyStr.space_head (String c s) = None.
Proof.
  intros Hc. destruct (PyStr.space_head (String c s)) as [r|] eqn:E; [|reflexivity].
  destruct (space_head_Some _ _ E) as (cp & Hin & H).
  destruct (whitespace_table cp Hin) as [Hs Hl].
  destruct (PyStr.utf8 cp) as [|b p]; [simpl in Hl; lia|].
  rewrite append_cons in H. injection H as -> _.
  simpl in Hs. apply solid_not_soft in Hc. now rewrite Hc in Hs.
Qed.

Lemma lstrip_solid (c : ascii) (s : string) :
  solid c = true -> PyStr.lstrip (String c s) = String c s.
Proof. intros Hc. now rewrite lstrip_eq, space_head_solid. Qed.

Lemma lstrip_before_solid (a : string) (c : ascii) (s : string) :
  solid c = true ->
  exists a', PyStr.lstrip (a +:+ String c s) = a' +:+ String c s.
Proof.
  intros Hc.
  destruct (lstrip_spec (a +:+ String c s)) as (lead & Hw & H & _).
  destruct (fit_left lead c _ a s (whitespace_soft _ Hw) Hc (eq_sym H)) as [a' ->].
  exists a'. rewrite append_assoc in H |- *.
  apply append_inv_head in H. now rewrite <- H.
Qed.

Lemma strip_suffix_under (suf U : string) (ch : ascii) (v : string) :
  soft suf = true -> solid ch = true ->
  strip_suffix suf (U +:+ String ch v)
  = option_map (String.append U) (strip_suffix suf (String ch v)).
Proof.
  intros Hs Hc. destruct (strip_suffix suf (String ch v)) as [r|] eqn:E.
  - apply strip_suffix_Some in E. rewrite E, <- append_assoc.
    apply strip_suffix_app.
  - destruct (strip_suffix suf (U +:+ String ch v)) as [r|] eqn:E';
      [|reflexivity].
    apply strip_suffix_Some in E'.
    destruct (fit_right suf ch U v r Hs Hc E') as [y' ->].
    rewrite <- append_cons, strip_suffix_app in E. discriminate.
Qed.

Lemma space_last_under (U : string) (ch : ascii) (v : string) :
  solid ch = true ->
  PyStr.space_last (U +:+ String ch v)
  = option_map (String.append U) (PyStr.space_last (String ch v)).
Proof.
  intros Hc. unfold PyStr.space_last.
  assert (H : forall cp, In cp PyStr.unicode_whitespace ->
                         soft (PyStr.utf8 cp) = true)
    by (intros cp Hin; apply (whitespace_table cp Hin)).
  induction PyStr.unicode_whitespace as [|cp l IH]; [reflexivity|].
  cbn [fold_right]. rewrite strip_suffix_under by (auto using in_eq).
  destruct (strip_suffix (PyStr.utf8 cp) (String ch v)); [reflexivity|].
  cbn [option_map].
  apply IH. intros cp' Hin. apply H. now right.
Qed.

Lemma rstrip_under (U : string) (ch : ascii) (v : string) :
  solid ch = true ->
  PyStr.rstrip (U +:+ String ch v) = U +:+ PyStr.rstrip (String ch v).
Proof.
  intros Hc. revert v. 
  induction v as [v IH] using string_length_ind.
  rewrite (rstrip_eq (U +:+ String ch v)), (rstrip_eq (String ch v)).
  rewrite space_last_under by exact Hc.
  destruct (PyStr.space_last (String ch v)) as [r|] eqn:E; [|reflexivity].
  simpl. destruct (space_last_Some _ _ E) as (cp & Hin & H).
  destruct (whitespace_table cp Hin) as [Hs Hl].
  destruct r as [|c' r].
  - rewrite append_nil_l in H. rewrite <- H in Hs. simpl in Hs.
    apply solid_not_soft in Hc. now rewrite Hc in Hs.
  - rewrite append_cons in H. injection H as <- H.
    apply IH. rewrite H, append_length. lia.
Qed.

Lemma rstrip_solid_head (ch : ascii) (v : string) :
  solid ch = true -> exists r, PyStr.rstrip (String ch v) = String ch r.
Proof.
  intros Hc. destruct (rstrip_spec (String ch v)) as (trail & Hw & H & _).
  destruct (PyStr.rstrip (String ch v)) as [|c r].
  - rewrite append_nil_l in H. subst trail. apply whitespace_soft in Hw.
    simpl in Hw. apply solid_not_soft in Hc. now rewrite Hc in Hw.
  - rewrite append_cons in H. injection H as <- _. now exists r.
Qed.

Lemma rstrip_fixed (s : string) :
  PyStr.space_last s = None -> PyStr.rstrip s = s.
Proof. intros H. now rewrite rstrip_eq, H. Qed.

Lemma rstrip_idem (s : string) : PyStr.rstrip (PyStr.rstrip s) = PyStr.rstrip s.
Proof.
  destruct (rstrip_spec s) as (_ & _ & _ & H). now apply rstrip_fixed.
Qed.

Lemma append_last_inj (a b : string) (x y : ascii) :
  a +:+ String x "" = b +:+ String y "" -> a = b /\ x = y.
Proof.
  intros H.
  assert (Hl : String.length a = String.length b).
  { apply (f_equal String.length) in H. rewrite !append_length in H.
    simpl in H. lia. }
  pose proof (append_inj_r a b _ _ Hl H) as E. injection E as ->.
  split; [|reflexivity]. now apply append_inj_l in H.
Qed.

Lemma last_byte_app (r suf : string) :
  suf <> "" -> last_byte (r +:+ suf) = last_byte suf.
Proof.
  intros Hs. induction r as [|c r IH]; [reflexivity|].
  rewrite append_cons. simpl. rewrite IH.
  destruct suf as [|d suf]; [congruence|]. simpl.
  now destruct (last_byte suf).
Qed.

Lemma newline_in_table (cp : N) :
  In cp PyStr.unicode_whitespace ->
  last_byte (PyStr.utf8 cp) = Some PyStr.newline -> PyStr.utf8 cp = linesep.
Proof.
  intros Hin.
  assert (H : forallb (fun cp =>
                         match last_byte (PyStr.utf8 cp) with
                         | Some d => if Ascii.eqb d PyStr.newline
                                     then String.eqb (PyStr.utf8 cp) linesep
                                     else true
                         | None => true
                         end) PyStr.unicode_whitespace = true)
    by (vm_compute; reflexivity).
  rewrite forallb_forall in H. specialize (H cp Hin). intros E.
  rewrite E, Ascii.eqb_refl in H. now apply String.eqb_eq.
Qed.

Lemma space_last_linesep (s : string) :
  PyStr.space_last (s +:+ linesep) = Some s.
Proof.
  destruct (PyStr.space_last (s +:+ linesep)) as [r|] eqn:E.
  - destruct (space_last_Some _ _ E) as (cp & Hin & H).
    destruct (whitespace_table cp Hin) as [_ Hl].
    assert (Hne : PyStr.utf8 cp <> "")
      by (intros Hz; rewrite Hz in Hl; simpl in Hl; lia).
    pose proof (f_equal last_byte H) as Hb.
    rewrite !last_byte_app in Hb by (exact Hne || discriminate).
    symmetry in Hb. rewrite (newline_in_table cp Hin Hb) in H.
    apply append_inj_l in H. now subst.
  - exfalso. apply (space_last_None _ E 10%N s); [vm_compute; tauto | reflexivity].
Qed.

Lemma rstrip_app_linesep (s : string) :
  PyStr.rstrip (s +:+ linesep) = PyStr.rstrip s.
Proof. now rewrite rstrip_eq, space_last_linesep. Qed.

Lemma rstrip_app_newlines (s : string) (k : nat) :
  PyStr.rstrip (s +:+ PyStr.repeat linesep k) = PyStr.rstrip s.
Proof.
  revert s. induction k as [|k IH]; intros s.
  - simpl. now rewrite append_nil_r.
  - change (PyStr.repeat linesep (S k)) with (linesep +:+ PyStr.repeat linesep k).
    now rewrite <- append_assoc, IH, rstrip_app_linesep.
Qed.

Lemma strip_app_newlines (s : string) (k : nat) :
  PyStr.strip (s +:+ PyStr.repeat linesep k) = PyStr.strip s.
Proof. unfold PyStr.strip. now rewrite rstrip_app_newlines. Qed.

Lemma strip_app_linesep (s : string) :
  PyStr.strip (s +:+ linesep) = PyStr.strip s.
Proof. exact (strip_app_newlines s 1). Qed.

Lemma join_cons (sep x y : string) (l : list string) :
  PyStr.join sep (x :: y :: l) = x +:+ sep +:+ PyStr.join sep (y :: l).
Proof. reflexivity. Qed.

Lemma join_blanklines (x : string) (k : nat) :
  PyStr.join linesep (x :: List.repeat blankline k) = x +:+ PyStr.repeat linesep k.
Proof.
  revert x. induction k as [|k IH]; intros x.
  - simpl. now rewrite append_nil_r.
  - simpl List.repeat. rewrite join_cons, IH. reflexivity.
Qed.

Lemma join_app_blanklines (l : list string) (x : string) (k : nat) :
  PyStr.join linesep ((x :: l) ++ List.repeat blankline k)
  = PyStr.join linesep (x :: l) +:+ PyStr.repeat linesep k.
Proof.
  revert x. induction l as [|y l IH]; intros x.
  - apply join_blanklines.
  - simpl app in *. rewrite !join_cons, IH, !append_assoc. reflexivity.
Qed.

(** Two neighbours of a joined list stay neighbours in the text. *)
Lemma join_middle (sep : string) (l1 l2 : list string) (x y : string) :
  exists before after,
    PyStr.join sep (l1 ++ x :: y :: l2) = before +:+ x +:+ sep +:+ y +:+ after.
Proof.
  induction l1 as [|h l1 (b & a & IH)].
  - simpl app. rewrite join_cons.
    destruct l2 as [|z l2].
    + exists "", "". now rewrite append_nil_l, append_nil_r.
    + exists "", (sep +:+ PyStr.join sep (z :: l2)).
      now rewrite join_cons, append_nil_l.
  - exists (h +:+ sep +:+ b), a.
    destruct l1; simpl app in *; rewrite join_cons, IH, !append_assoc; reflexivity.
Qed.

(** Stripping never cuts into a stretch of text that starts and ends with a
    solid byte. *)
Lemma strip_keeps (a b : string) (c d : ascii) (m : string) :
  solid c = true -> solid d = true ->
  exists a' b',
    PyStr.strip (a +:+ (String c m +:+ String d "") +:+ b)
    = a' +:+ (String c m +:+ String d "") +:+ b'.
Proof.
  intros Hc Hd. unfold PyStr.strip.
  destruct (rstrip_solid_head d b Hd) as [r Hr].
  replace (a +:+ (String c m +:+ String d "") +:+ b)
    with ((a +:+ String c m) +:+ String d b) by now str_norm.
  rewrite (rstrip_under _ d b Hd), Hr.
  replace ((a +:+ String c m) +:+ String d r)
    with (a +:+ String c (m +:+ String d r)) by now str_norm.
  destruct (lstrip_before_solid a c (m +:+ String d r) Hc) as [a' ->].
  exists a', r. now str_norm.
Qed.

(** ** The artifact *)

Lemma join_lines_below (x : string) (l : list string) :
  PyStr.join linesep (x :: l) = lines_below x l.
Proof.
  unfold lines_below. revert x. induction l as [|y l IH]; intros x.
  - simpl. now rewrite append_nil_r.
  - rewrite join_cons, IH. reflexivity.
Qed.

(** C6: the artifact is made of the docstring line and, each on a line of
    its own below it, the imports (each once), two blank lines and the body
    lines in order; of that text the white space at the start and at the end
    is taken off, what is left has white space at neither end, and one
    newline is appended; the blank lines that end the buffer change
    nothing. *)
Theorem code_is_trimmed_artifact (g : PyTestModuleGenerator) :
  NoDup (elements (imports g))
  /\ (forall s, s ∈ elements (imports g) <-> s ∈ imports g)
  /\ (exists lead text trail,
        lines_below (module_docstring g)
          (elements (imports g) ++ [blankline; blankline] ++ lines g)
        = lead +:+ text +:+ trail
        /\ whitespace lead /\ whitespace trail
        /\ (forall cp r, In cp PyStr.unicode_whitespace ->
                         text <> PyStr.utf8 cp +:+ r)
        /\ (forall cp r, In cp PyStr.unicode_whitespace ->
                         text <> r +:+ PyStr.utf8 cp)
        /\ code g = text +:+ linesep)
  /\ (forall k, code (set_lines (lines g ++ List.repeat blankline k) g) = code g).
Proof.
  split; [apply NoDup_elements|].
  split; [intros s; apply elem_of_elements|].
  split.
  - rewrite <- join_lines_below.
    set (content := PyStr.join linesep _).
    destruct (rstrip_spec content) as (trail & Wt & Hu & Lu).
    destruct (lstrip_spec (PyStr.rstrip content)) as (lead & Wl & Ht & Hh).
    exists lead, (PyStr.strip content), trail. unfold PyStr.strip.
    split; [now rewrite <- append_assoc, <- Ht|].
    split; [exact Wl|]. split; [exact Wt|].
    split; [now apply space_head_None|].
    split; [|reflexivity].
    intros cp r Hin E. rewrite E, <- append_assoc in Ht.
    exact (space_last_None _ Lu cp _ Hin Ht).
  - intros k. unfold code. cbn [lines module_docstring imports set_lines].
    replace ([module_docstring g] ++ elements (imports g)
               ++ List.repeat blankline 2 ++ lines g ++ List.repeat blankline k)
      with ((module_docstring g
               :: (elements (imports g) ++ List.repeat blankline 2 ++ lines g))
              ++ List.repeat blankline k)
      by (simpl; now rewrite <- !app_assoc).
    now rewrite join_app_blanklines, strip_app_newlines.
Qed.

(** ** The class docstring in the artifact *)

Lemma cls_docstring_first (name : string) :
  exists m, cls_docstring name = String PyStr.quote m.
Proof. unfold cls_docstring, triple_quote. rewrite append_cons. eauto. Qed.

Lemma content_line_last (i : Z) (c : option string) (l : string) :
  opening i c l \/ l = pass_line i ->
  exists l' d, l = l' +:+ String d "" /\ solid d = true.
Proof.
  intros [[[name ->]|[->|[name ->]]]| ->].
  - exists (PyStr.mul tab i +:+ "def test_" +:+ name +:+ "(" +:+ arg_self_for c +:+ ")"), ":"%char.
    split; [|reflexivity]. unfold def_line. now rewrite !append_assoc.
  - exists (PyStr.mul tab i +:+ "@pytest.mark.asynci"), "o"%char.
    split; [|reflexivity]. unfold async_mark_line. now rewrite !append_assoc.
  - exists (PyStr.mul tab i +:+ "class Test" +:+ name), ":"%char.
    split; [|reflexivity]. unfold clsdef_line. now rewrite !append_assoc.
  - exists (PyStr.mul tab i +:+ "pas"), "s"%char.
    split; [|reflexivity]. unfold pass_line. now rewrite !append_assoc.
Qed.

(** C10: the docstring line of a class ends with a newline of its own, and
    the line after it in the buffer is the first line of a member or [pass];
    so in the artifact, whatever is written later, the docstring is followed
    by one empty line and then by that line. *)
Theorem class_docstring_then_blank_line (name : string) (body : list node) g :
  exists g' next rest,
    visit (ClassDef name body) g = Ok g'
    /\ lines g' = lines g
                  ++ clsdef_line (indent g) name
                  :: (PyStr.mul tab (indent g + 1) +:+ cls_docstring name +:+ linesep)
                  :: next :: rest
    /\ (opening (indent g + 1) (Some name) next \/ next = pass_line (indent g + 1))
    /\ forall gf more,
        exists before after,
          code (set_lines (lines g' ++ more) gf)
          = before +:+ cls_docstring name +:+ linesep +:+ linesep +:+ next +:+ after.
Proof.
  destruct (visit_ClassDef_lines name body g)
    as (g4 & a & g' & _ & L & S & V & L' & _).
  assert (H : exists next rest,
             lines g' = lines g
                        ++ clsdef_line (indent g) name
                        :: cls_docstring_line (indent g) name :: next :: rest
             /\ (opening (indent g + 1) (Some name) next
                 \/ next = pass_line (indent g + 1))).
  { rewrite L', L. destruct (existsb emits body).
    - destruct S as (f & r & -> & Hf). exists f, (r ++ [blankline]).
      split; [|now left]. rewrite <- !app_assoc. reflexivity.
    - subst a. exists (pass_line (indent g + 1)), [blankline; blankline].
      split; [|now right]. rewrite <- !app_assoc. reflexivity. }
  destruct H as (next & rest & Hl & Hn).
  exists g', next, rest. split; [exact V|]. split; [exact Hl|]. split; [exact Hn|].
  intros gf more. unfold code. simpl lines. rewrite Hl.
  destruct (cls_docstring_first name) as [m Hm].
  destruct (content_line_last _ _ _ Hn) as (n' & d & Hn' & Hd).
  destruct (join_middle linesep
              ([module_docstring (set_lines (lines g' ++ more) gf)]
                 ++ elements (imports (set_lines (lines g' ++ more) gf))
                 ++ List.repeat blankline 2 ++ lines g
                 ++ [clsdef_line (indent g) name])
              (rest ++ more) (cls_docstring_line (indent g) name) next)
    as (b0 & a0 & J).
  match goal with |- context [PyStr.join linesep ?l] =>
    replace l with
      (([module_docstring (set_lines (lines g' ++ more) gf)]
          ++ elements (imports (set_lines (lines g' ++ more) gf))
          ++ List.repeat blankline 2 ++ lines g
          ++ [clsdef_line (indent g) name])
         ++ cls_docstring_line (indent g) name :: next :: rest ++ more)
      by (rewrite <- !app_assoc; reflexivity)
  end.
  rewrite J.
  replace (b0 +:+ cls_docstring_line (indent g) name +:+ linesep +:+ next +:+ a0)
    with ((b0 +:+ PyStr.mul tab (indent g + 1))
            +:+ (String PyStr.quote (m +:+ linesep +:+ linesep +:+ n')
                   +:+ String d "") +:+ a0)
    by (unfold cls_docstring_line; rewrite Hm, Hn'; now str_norm).
  destruct (strip_keeps (b0 +:+ PyStr.mul tab (indent g + 1)) a0 PyStr.quote d
              (m +:+ linesep +:+ linesep +:+ n') eq_refl Hd) as (a' & b' & K).
  exists a', (b' +:+ linesep).
  rewrite K, Hm, Hn'. now str_norm.
Qed.

(** * Order of the placeholders *)

Lemma space_head_space (s : string) :
  PyStr.space_head (String PyStr.space s) = Some s.
Proof. reflexivity. Qed.

Lemma lstrip_indented (k : nat) (c : ascii) (s : string) :
  solid c = true ->
  PyStr.lstrip (PyStr.repeat tab k +:+ String c s) = String c s.
Proof.
  intros Hc. induction k as [|k IH].
  - rewrite append_nil_l. now apply lstrip_solid.
  - rewrite repeat_tab_S.
    do 4 (rewrite lstrip_eq, space_head_space). exact IH.
Qed.

Lemma lstrip_indented_text (k : nat) (p r : string) (c : ascii) (p' : string) :
  p = String c p' -> solid c = true ->
  PyStr.lstrip (PyStr.repeat tab k +:+ p +:+ r) = p +:+ r.
Proof. intros -> Hc. rewrite append_cons. now apply lstrip_indented. Qed.

Lemma read_def_line (i : Z) (name : string) (c : option string) :
  read_placeholder (def_line i name (arg_self_for c)) = Some (DFunction name).
Proof.
  unfold read_placeholder, def_line, PyStr.mul.
  rewrite (lstrip_indented_text _ "def test_" _ "d" "ef test_" eq_refl eq_refl).
  rewrite strip_prefix_app. destruct c as [c|]; simpl arg_self_for.
  - change (name +:+ "(" +:+ "self" +:+ "):") with (name +:+ "(self):").
    now rewrite strip_suffix_app.
  - change (name +:+ "(" +:+ "" +:+ "):") with (name +:+ "():").
    now rewrite strip_suffix_self_none, strip_suffix_app.
Qed.

Lemma read_async_def_line (i : Z) (name : string) :
  read_placeholder (async_def_line i name) = Some (DAsync name).
Proof.
  unfold read_placeholder, async_def_line, PyStr.mul.
  rewrite (lstrip_indented_text _ "async def test_" _ "a" "sync def test_"
             eq_refl eq_refl).
  change (strip_prefix "def test_" ("async def test_" +:+ name +:+ "():"))
    with (@None string).
  now rewrite strip_prefix_app, strip_suffix_app.
Qed.

Lemma read_clsdef_line (i : Z) (name : string) :
  read_placeholder (clsdef_line i name) = Some (DClass name).
Proof.
  unfold read_placeholder, clsdef_line, PyStr.mul.
  rewrite (lstrip_indented_text _ "class Test" _ "c" "lass Test" eq_refl eq_refl).
  change (strip_prefix "def test_" ("class Test" +:+ name +:+ ":"))
    with (@None string).
  change (strip_prefix "async def test_" ("class Test" +:+ name +:+ ":"))
    with (@None string).
  now rewrite strip_prefix_app, strip_suffix_app.
Qed.

(** A line whose first character after the indentation starts none of the
    three declaration keywords opens no declaration. *)
Lemma read_other_line (k : nat) (c : ascii) (s : string) :
  solid c = true ->
  Ascii.eqb "d" c = false -> Ascii.eqb "a" c = false -> Ascii.eqb "c" c = false ->
  read_placeholder (PyStr.repeat tab k +:+ String c s) = None.
Proof.
  intros Hs Hd Ha Hc. unfold read_placeholder.
  rewrite lstrip_indented by exact Hs.
  now rewrite !strip_prefix_cons, Hd, Ha, Hc.
Qed.

Lemma read_async_mark_line (i : Z) : read_placeholder (async_mark_line i) = None.
Proof. now apply read_other_line. Qed.

Lemma read_pass_line (i : Z) : read_placeholder (pass_line i) = None.
Proof. now apply read_other_line. Qed.

Lemma read_docstring_line (i : Z) : read_placeholder (docstring_line i) = None.
Proof. now apply read_other_line. Qed.

Lemma read_cls_docstring_line (i : Z) (name : string) :
  read_placeholder (cls_docstring_line i name) = None.
Proof.
  unfold cls_docstring_line. destruct (cls_docstring_first name) as [m ->].
  rewrite append_cons. now apply read_other_line.
Qed.

Lemma read_assert_line (i : Z) : read_placeholder (assert_line i) = None.
Proof.
  unfold read_placeholder, assert_line, PyStr.mul, default_assert_code.
  rewrite lstrip_indented by reflexivity. reflexivity.
Qed.

Lemma read_blankline : read_placeholder blankline = None.
Proof. reflexivity. Qed.

Lemma placeholders_app (a b : list string) :
  placeholders (a ++ b) = placeholders a ++ placeholders b.
Proof. apply omap_app. Qed.

Lemma placeholders_cons (x : string) (l : list string) :
  placeholders (x :: l) =
  match read_placeholder x with
  | Some d => d :: placeholders l
  | None => placeholders l
  end.
Proof. reflexivity. Qed.

Lemma placeholders_blanklines (k : nat) :
  placeholders (List.repeat blankline k) = [].
Proof.
  induction k as [|k IH]; [reflexivity|].
  simpl List.repeat. now rewrite placeholders_cons, read_blankline.
Qed.

Lemma generic_visit_in_order (cs : list node) :
  Forall in_order cs ->
  forall g, exists g',
    generic_visit cs g = Ok g'
    /\ placeholders (lines g')
       = placeholders (lines g) ++ flat_map declarations cs.
Proof.
  induction 1 as [|c cs Hc _ IH]; intros g.
  - exists g. simpl. now rewrite app_nil_r.
  - destruct (Hc g) as (g1 & E1 & P1). destruct (IH g1) as (g2 & E2 & P2).
    exists g2. rewrite generic_visit_cons, E1. split; [exact E2|].
    simpl flat_map. now rewrite P2, P1, app_assoc.
Qed.

Lemma visit_in_order (n : node) : in_order n.
Proof.
  induction n as [body Hb|name body Hb|name body Hb|name body Hb|cs Hb]
    using node_tree_ind; intros g.
  - rewrite visit_Module.
    match goal with |- context [generic_visit body ?g0] =>
      destruct (generic_visit_in_order body Hb g0) as (g' & E & P)
    end. now exists g'.
  - rewrite visit_FunctionDef.
    match goal with |- context [generic_visit body ?g0] =>
      destruct (generic_visit_in_order body Hb g0) as (g' & E & P)
    end.
    exists g'. split; [exact E|].
    rewrite P, lines_append_blanklines. simpl lines.
    rewrite !placeholders_app, placeholders_blanklines, !placeholders_cons.
    rewrite read_def_line, read_docstring_line, read_assert_line.
    rewrite app_nil_r, <- app_assoc. reflexivity.
  - rewrite visit_AsyncFunctionDef.
    match goal with |- context [generic_visit body ?g0] =>
      destruct (generic_visit_in_order body Hb g0) as (g' & E & P)
    end.
    exists g'. split; [exact E|].
    rewrite P, lines_append_blanklines. simpl lines.
    rewrite !placeholders_app, placeholders_blanklines, !placeholders_cons.
    rewrite read_async_mark_line, read_async_def_line,
      read_docstring_line, read_assert_line.
    rewrite app_nil_r, <- app_assoc. reflexivity.
  - destruct (visit_ClassDef_lines name body g) as (g4 & a & g' & E & _ & _ & V & L & _).
    match type of E with generic_visit body ?g0 = _ =>
      destruct (generic_visit_in_order body Hb g0) as (g4' & E' & P)
    end.
    assert (g4' = g4) by congruence. subst g4'.
    exists g'. split; [exact V|].
    rewrite L, !placeholders_app, P. simpl lines.
    rewrite !placeholders_app, !placeholders_cons.
    rewrite read_clsdef_line, read_cls_docstring_line, read_blankline.
    destruct (existsb emits body).
    + simpl. rewrite !app_nil_r, <- app_assoc. reflexivity.
    + rewrite !placeholders_cons, read_pass_line, read_blankline.
      simpl. rewrite !app_nil_r, <- app_assoc. reflexivity.
  - rewrite visit_Other. apply (generic_visit_in_order cs Hb g).
Qed.

(** C4: the placeholders read back from the buffer after a visit are the
    ones that were there before, followed by one placeholder for each
    definition of the tree, nested ones included, in source order. *)
Theorem placeholders_in_source_order (n : node) (g : PyTestModuleGenerator) :
  (exists g',
      visit n g = Ok g'
      /\ placeholders (lines g') = placeholders (lines g) ++ declarations n)
  /\ (forall m, exists g',
         visit n (init m) = Ok g' /\ placeholders (lines g') = declarations n).
Proof.
  split; [apply visit_in_order|].
  intros m. destruct (visit_in_order n (init m)) as (g' & E & P). now exists g'.
Qed.

(** * The writer and the loop over the modules *)

(** ** The commands, one by one *)

Lemma create_spec (p : Path.t) (e : entry) (w : World) :
  match create p e w with
  | (Ok _, w') => only_changes p w w' /\ files w' !! p = Some e
  | (Raise _, w') => w' = w /\ files w !! Path.parent p <> Some Dir
  end.
Proof.
  unfold create. destruct (files w !! Path.parent p) as [[c| |b]|] eqn:E.
  - split; [reflexivity | discriminate].
  - split; [split; [|reflexivity]|]; simpl.
    + intros q Hq. now apply lookup_insert_ne.
    + apply lookup_insert_eq.
  - split; [reflexivity | discriminate].
  - split; [reflexivity | discriminate].
Qed.

Lemma mkdir_exist_ok_spec (p : Path.t) (w : World) :
  match mkdir_exist_ok p w with
  | (Ok _, w') => only_changes p w w' /\ files w' !! p = Some Dir
  | (Raise _, w') => w' = w
  end.
Proof.
  unfold mkdir_exist_ok. destruct (files w !! p) as [[c| |b]|] eqn:E.
  - reflexivity.
  - split; [split; [intros; reflexivity | reflexivity] | exact E].
  - reflexivity.
  - generalize (create_spec p Dir w). destruct (create p Dir w) as [[u|e] w']; tauto.
Qed.

Lemma touch_exist_ok_spec (p : Path.t) (w : World) :
  match touch_exist_ok p w with
  | (Ok _, w') =>
      only_changes p w w'
      /\ files w' !! p = Some (default (File "") (files w !! p))
  | (Raise _, w') => w' = w /\ files w !! Path.parent p <> Some Dir
  end.
Proof.
  unfold touch_exist_ok. destruct (files w !! p) as [e|] eqn:E.
  - split; [split; [intros; reflexivity | reflexivity] | exact E].
  - apply create_spec.
Qed.

Lemma write_text_spec (p : Path.t) (data : string) (w : World) :
  match write_text p data w with
  | (Ok _, w') => only_changes p w w' /\ files w' !! p = Some (File data)
  | (Raise _, w') =>
      w' = w /\ (files w !! p = Some Dir \/ files w !! Path.parent p <> Some Dir)
  end.
Proof.
  unfold write_text. destruct (files w !! p) as [[c| |b]|] eqn:E.
  - split; [split; [|reflexivity]|]; simpl.
    + intros q Hq. now apply lookup_insert_ne.
    + apply lookup_insert_eq.
  - split; [reflexivity | now left].
  - split; [split; [|reflexivity]|]; simpl.
    + intros q Hq. now apply lookup_insert_ne.
    + apply lookup_insert_eq.
  - generalize (create_spec p (File data) w).
    destruct (create p (File data) w) as [[u|e] w']; tauto.
Qed.

Lemma parent_div (p : Path.t) (s : string) : Path.parent (Path.div p s) = p.
Proof. apply removelast_last. Qed.

Lemma div_ne (p : Path.t) (s : string) : Path.div p s <> p.
Proof.
  intros H. apply (f_equal (@length string)) in H.
  unfold Path.div in H. rewrite length_app in H. simpl in H. lia.
Qed.

Lemma conftest_ne_test_module (g : PyTestModuleGenerator) :
  conftest_path g <> test_module_path g.
Proof.
  unfold conftest_path, test_module_path, Path.div. intros H.
  apply app_inv_head in H. discriminate H.
Qed.

(** ** The writer *)

Lemma write_again (g : PyTestModuleGenerator) (w : World) :
  files w !! tests_dir g = Some Dir ->
  is_Some (files w !! conftest_path g) ->
  (exists c, files w !! test_module_path g = Some (File c)) ->
  write g w
  = (Ok tt, set_files (<[test_module_path g := File (code g)]> (files w)) w).
Proof.
  intros Ht [e He] [c Hc].
  unfold write, mbind, io_bind, mkdir_exist_ok. rewrite Ht.
  unfold touch_exist_ok. rewrite He. unfold write_text. now rewrite Hc.
Qed.

(** C8: the writer leaves an existing [conftest.py] as it is and creates it
    empty when it is absent; when it returns, the test module holds the
    generated code whatever was there before; a second call changes the
    marker no more and writes the test module again. *)
Theorem write_marker_once_test_module_always
  (g : PyTestModuleGenerator) (w : World) (r : result unit) (w' : World) :
  write g w = (r, w') ->
  (files w' !! conftest_path g = files w !! conftest_path g
   \/ (files w !! conftest_path g = None
       /\ files w' !! conftest_path g = Some (File "")))
  /\ match r with
     | Raise _ => True
     | Ok _ =>
         files w' !! conftest_path g
         = Some (default (File "") (files w !! conftest_path g))
         /\ files w' !! test_module_path g = Some (File (code g))
         /\ forall l, exists w'',
             write (set_lines l g) w' = (Ok tt, w'')
             /\ files w'' !! conftest_path g = files w' !! conftest_path g
             /\ files w'' !! test_module_path g = Some (File (code (set_lines l g)))
     end.
Proof.
  intros H. unfold write, mbind, io_bind in H.
  assert (Hmarker : forall o : option entry,
             Some (default (File "") o) = o
             \/ (o = None /\ Some (default (File "") o) = Some (File ""))).
  { intros [e|]; [now left | now right]. }
  generalize (mkdir_exist_ok_spec (tests_dir g) w).
  destruct (mkdir_exist_ok (tests_dir g) w) as [[[]|e1] w1].
  2: { intros ->. injection H as <- <-. split; [now left | exact I]. }
  intros [[F1 _] D1].
  generalize (touch_exist_ok_spec (conftest_path g) w1).
  destruct (touch_exist_ok (conftest_path g) w1) as [[[]|e2] w2].
  2: { intros [-> _]. injection H as <- <-.
       split; [left; apply F1, div_ne | exact I]. }
  intros [[F2 _] M2].
  rewrite (F1 (conftest_path g)) in M2 by apply div_ne.
  generalize (write_text_spec (test_module_path g) (code g) w2).
  destruct (write_text (test_module_path g) (code g) w2) as [[[]|e3] w3].
  2: { intros [-> _]. injection H as <- <-. split; [|exact I].
       rewrite M2. apply Hmarker. }
  intros [[F3 _] O3]. injection H as <- <-.
  assert (M3 : files w3 !! conftest_path g
               = Some (default (File "") (files w !! conftest_path g))).
  { rewrite (F3 (conftest_path g)) by apply conftest_ne_test_module. exact M2. }
  split; [rewrite M3; apply Hmarker|].
  split; [exact M3|]. split; [exact O3|].
  intros l. eexists. split.
  - apply (write_again (set_lines l g)).
    + simpl. rewrite (F3 (tests_dir g)) by (apply not_eq_sym, div_ne).
      rewrite (F2 (tests_dir g)) by (apply not_eq_sym, div_ne). exact D1.
    + change (conftest_path (set_lines l g)) with (conftest_path g).
      rewrite M3. eauto.
    + exists (code g). exact O3.
  - simpl. split.
    + apply lookup_insert_ne, not_eq_sym, (conftest_ne_test_module g).
    + apply (lookup_insert_eq (files w3) (test_module_path g)).
Qed.

Lemma write_marker_once_test_module_always_witness :
  exists w',
    write (init ["src"; "a.py"]) demo_world = (Ok tt, w')
    /\ files w' !! ["src"; "tests"; "conftest.py"] = Some (File "")
    /\ files w' !! ["src"; "tests"; "test_a.py"]
       = Some (File (code (init ["src"; "a.py"]))).
Proof.
  eexists. split; [vm_compute; reflexivity|].
  destruct (write_marker_once_test_module_always
              (init ["src"; "a.py"]) demo_world (Ok tt) _ eq_refl)
    as (_ & M & T & _).
  split; [exact M | exact T].
Defined.

(** ** The loop over the modules *)

Lemma loop_modules_app (ast_parse : string -> result node)
  (pre l : list Path.t) (w : World) :
  loop_modules ast_parse (pre ++ l) w =
  match loop_modules ast_parse pre w with
  | (Ok _, w1) => loop_modules ast_parse l w1
  | (Raise e, w1) => (Raise e, w1)
  end.
Proof.
  revert w. induction pre as [|m pre IH]; intros w; [reflexivity|].
  simpl app. simpl loop_modules. unfold mbind, io_bind, is_dir, echo.
  match goal with |- context [orb ?a ?b] => destruct (orb a b) end; [apply IH|].
  match goal with |- context [generate ast_parse (init m) ?w0] =>
    destruct (generate ast_parse (init m) w0) as [[gen|e] w1]
  end; [|reflexivity].
  destruct (write gen w1) as [[u|e] w2]; [apply IH | reflexivity].
Qed.

Lemma generate_parse_error (ast_parse : string -> result node)
  (g : PyTestModuleGenerator) (w : World) (text : string) (e : exn) :
  files w !! module g = Some (File text) ->
  ast_parse text = Raise e ->
  generate ast_parse g w = (Raise e, w).
Proof.
  intros Hf Hp. unfold generate, mbind, io_bind, read_text.
  now rewrite Hf, Hp.
Qed.

(** C7: when the text of a module does not parse, [generate] raises the
    error of the parser and leaves the world as it is; the loop stops there
    with that error, the files being those the modules before it left:
    nothing was written for the module. *)
Theorem parse_error_before_any_write (ast_parse : string -> result node)
  (pre : list Path.t) (m : Path.t) (rest : list Path.t)
  (w w1 : World) (text : string) (e : exn) :
  loop_modules ast_parse pre w = (Ok tt, w1) ->
  files w1 !! m = Some (File text) ->
  PyStr.startswith (Path.name m) "_" = false ->
  ast_parse text = Raise e ->
  generate ast_parse (init m) w1 = (Raise e, w1)
  /\ exists w2,
      loop_modules ast_parse (pre ++ m :: rest) w = (Raise e, w2)
      /\ files w2 = files w1.
Proof.
  intros Hpre Hf Hn Hp. split; [now apply (generate_parse_error _ _ _ text)|].
  rewrite loop_modules_app, Hpre. simpl loop_modules.
  unfold mbind, io_bind, is_dir, echo. rewrite Hf, Hn.
  change (false || false) with false. cbv beta iota.
  match goal with |- context [generate ast_parse (init m) ?w0] =>
    rewrite (generate_parse_error ast_parse (init m) w0 text e Hf Hp)
  end.
  eexists. split; reflexivity.
Qed.

Lemma parse_error_before_any_write_witness :
  exists w2,
    loop_modules sample_parse [["src"; "a.py"]; ["src"; "b.py"]] demo_world
    = (Raise (ParseError "invalid syntax"), w2)
    /\ files w2 !! ["src"; "tests"; "test_b.py"] = None
    /\ files w2 !! ["src"; "tests"; "test_a.py"]
       = Some (File (code (set_lines [def_line 0 "f" ""; docstring_line 0;
                                      assert_line 0; blankline; blankline]
                             (set_imports {["import pytest"]}
                                (set_module_docstring
                                   (module_docstring_of ["src"; "a.py"])
                                   (init ["src"; "a.py"])))))).
Proof.
  destruct (parse_error_before_any_write sample_parse
              [["src"; "a.py"]] ["src"; "b.py"] [] demo_world
              (snd (loop_modules sample_parse [["src"; "a.py"]] demo_world))
              "def (" (ParseError "invalid syntax"))
    as (_ & w2 & Hl & Hf).
  - vm_compute. reflexivity.
  - vm_compute. reflexivity.
  - reflexivity.
  - reflexivity.
  - exists w2. split; [exact Hl|]. rewrite Hf. split; vm_compute; reflexivity.
Defined.

(** * Further properties of the traversal *)

(** X1: whenever a visit returns, the buffer it leaves is the buffer it was
    given followed by what the visit appended, and [indent] and the two
    paths are as they were; it appended nothing exactly when the subtree
    holds no definition. Nothing is said of a visit that does not return:
    the interpreter ends the visit of a tree nested deeper than its
    recursion limit by an exception, with the buffer partly written. *)
Theorem visit_only_appends (n : node) (g g' : PyTestModuleGenerator) :
  visit n g = Ok g' ->
  exists added,
    lines g' = lines g ++ added
    /\ indent g' = indent g
    /\ module g' = module g
    /\ tests_dir g' = tests_dir g
    /\ (added = [] <-> emits n = false).
Proof.
  intros V.
  destruct (visit_shape n g) as (g'' & E & a & L & I & M & T & S).
  assert (g'' = g') by congruence. subst g''.
  exists a. repeat split; try assumption.
  - intros ->. destruct (emits n); [|reflexivity].
    now destruct S as [(f & r & [=] & _) _].
  - intros Hn. rewrite Hn in S. tauto.
Qed.

Lemma visit_only_appends_witness :
  visit (ClassDef "Stack" [Other []; FunctionDef "push" [Other []]])
    (init ["src"; "stack.py"])
  = Ok (set_lines [clsdef_line 0 "Stack"; cls_docstring_line 0 "Stack";
                   def_line 1 "push" "self"; docstring_line 1; assert_line 1;
                   blankline; blankline]
          (init ["src"; "stack.py"]))
  /\ exists added,
       lines (set_lines [clsdef_line 0 "Stack"; cls_docstring_line 0 "Stack";
                         def_line 1 "push" "self"; docstring_line 1;
                         assert_line 1; blankline; blankline]
                (init ["src"; "stack.py"]))
       = lines (init ["src"; "stack.py"]) ++ added
       /\ indent (set_lines [clsdef_line 0 "Stack"; cls_docstring_line 0 "Stack";
                             def_line 1 "push" "self"; docstring_line 1;
                             assert_line 1; blankline; blankline]
                    (init ["src"; "stack.py"]))
          = indent (init ["src"; "stack.py"])
       /\ module (set_lines [clsdef_line 0 "Stack"; cls_docstring_line 0 "Stack";
                             def_line 1 "push" "self"; docstring_line 1;
                             assert_line 1; blankline; blankline]
                    (init ["src"; "stack.py"]))
          = module (init ["src"; "stack.py"])
       /\ tests_dir (set_lines [clsdef_line 0 "Stack"; cls_docstring_line 0 "Stack";
                                def_line 1 "push" "self"; docstring_line 1;
                                assert_line 1; blankline; blankline]
                       (init ["src"; "stack.py"]))
          = tests_dir (init ["src"; "stack.py"])
       /\ (added = []
           <-> emits (ClassDef "Stack" [Other []; FunctionDef "push" [Other []]])
               = false).
Proof.
  split.
  - vm_compute. reflexivity.
  - apply (visit_only_appends
             (ClassDef "Stack" [Other []; FunctionDef "push" [Other []]])
             (init ["src"; "stack.py"])).
    vm_compute. reflexivity.
Defined.

Lemma generic_visit_cls_after (cs : list node) :
  Forall cls_after cs ->
  forall g, exists g',
    generic_visit cs g = Ok g'
    /\ current_cls g' = if existsb has_class cs then None else current_cls g.
Proof.
  induction 1 as [|c cs Hc _ IH]; intros g.
  - exists g. now split.
  - destruct (Hc g) as (g1 & E1 & C1). destruct (IH g1) as (g2 & E2 & C2).
    exists g2. rewrite generic_visit_cons, E1. split; [exact E2|].
    simpl existsb. rewrite C2, C1.
    destruct (has_class c), (existsb has_class cs); reflexivity.
Qed.

Lemma visit_cls_after (n : node) : cls_after n.
Proof.
  induction n as [body Hb|name body Hb|name body Hb|name body Hb|cs Hb]
    using node_tree_ind; intros g.
  - rewrite visit_Module.
    match goal with |- context [generic_visit body ?g0] =>
      destruct (generic_visit_cls_after body Hb g0) as (g' & E & C)
    end. now exists g'.
  - rewrite visit_FunctionDef.
    match goal with |- context [generic_visit body ?g0] =>
      destruct (generic_visit_cls_after body Hb g0) as (g' & E & C)
    end.
    exists g'. split; [exact E|].
    now rewrite current_cls_append_blanklines in C.
  - rewrite visit_AsyncFunctionDef.
    match goal with |- context [generic_visit body ?g0] =>
      destruct (generic_visit_cls_after body Hb g0) as (g' & E & C)
    end.
    exists g'. split; [exact E|].
    now rewrite current_cls_append_blanklines in C.
  - destruct (visit_ClassDef_lines name body g)
      as (_ & _ & g' & _ & _ & _ & V & _ & _ & C).
    now exists g'.
  - rewrite visit_Other. apply (generic_visit_cls_after cs Hb g).
Qed.

(** X2: after a visit, [current_cls] is [None] when the subtree holds a
    class definition, at any depth, and is what it was when it holds
    none. *)
Theorem current_cls_after_visit (n : node) (g : PyTestModuleGenerator) :
  exists g',
    visit n g = Ok g'
    /\ current_cls g' = if has_class n then None else current_cls g.
Proof. apply visit_cls_after. Qed.

Lemma imports_append_blanklines k g : imports (append_blanklines k g) = imports g.
Proof. induction k as [|k IH]; simpl; [reflexivity | exact IH]. Qed.

Lemma module_docstring_append_blanklines k g :
  module_docstring (append_blanklines k g) = module_docstring g.
Proof. induction k as [|k IH]; simpl; [reflexivity | exact IH]. Qed.

Lemma leave_class_header (clsdef : string) (g g' : PyTestModuleGenerator) :
  leave_class clsdef g = Ok g' ->
  module g' = module g /\ imports g' = imports g
  /\ module_docstring g' = module_docstring g.
Proof.
  unfold leave_class. destruct (getitem_neg _ 2) as [l|e]; [|discriminate].
  simpl. destruct (String.eqb l clsdef); intros [= <-]; repeat split.
Qed.

Lemma import_twice (x : string) (X : gset string) :
  {[x]} ∪ ({[x]} ∪ X) = {[x]} ∪ X.
Proof. now rewrite (assoc_L (∪)), union_idemp_L. Qed.

Lemma generic_visit_header_after (cs : list node) :
  Forall header_after cs ->
  forall g, exists g',
    generic_visit cs g = Ok g'
    /\ module g' = module g
    /\ imports g' = (if existsb has_module cs then {["import pytest"]} ∪ imports g
                    else imports g)
    /\ module_docstring g' = (if existsb has_module cs
                             then module_docstring_of (module g)
                             else module_docstring g).
Proof.
  induction 1 as [|c cs Hc _ IH]; intros g.
  - exists g. now repeat split.
  - destruct (Hc g) as (g1 & E1 & M1 & I1 & D1).
    destruct (IH g1) as (g2 & E2 & M2 & I2 & D2).
    exists g2. rewrite generic_visit_cons, E1. split; [exact E2|].
    split; [congruence|]. simpl existsb. rewrite I2, D2, I1, D1, M1.
    destruct (has_module c), (existsb has_module cs); simpl;
      split; try reflexivity. apply import_twice.
Qed.

Lemma visit_header_after (n : node) : header_after n.
Proof.
  induction n as [body Hb|name body Hb|name body Hb|name body Hb|cs Hb]
    using node_tree_ind; intros g.
  - rewrite visit_Module.
    match goal with |- context [generic_visit body ?g0] =>
      destruct (generic_visit_header_after body Hb g0) as (g' & E & M & I & D)
    end.
    exists g'. split; [exact E|]. simpl in M, I, D. split; [exact M|].
    rewrite I, D. destruct (existsb has_module body); split; try reflexivity.
    apply import_twice.
  - rewrite visit_FunctionDef.
    match goal with |- context [generic_visit body ?g0] =>
      destruct (generic_visit_header_after body Hb g0) as (g' & E & M & I & D)
    end.
    exists g'. split; [exact E|].
    rewrite module_append_blanklines in M, D.
    rewrite imports_append_blanklines in I.
    rewrite module_docstring_append_blanklines in D. now repeat split.
  - rewrite visit_AsyncFunctionDef.
    match goal with |- context [generic_visit body ?g0] =>
      destruct (generic_visit_header_after body Hb g0) as (g' & E & M & I & D)
    end.
    exists g'. split; [exact E|].
    rewrite module_append_blanklines in M, D.
    rewrite imports_append_blanklines in I.
    rewrite module_docstring_append_blanklines in D. now repeat split.
  - destruct (visit_ClassDef_lines name body g) as (g4 & _ & g' & E & _ & _ & V & _).
    match type of E with generic_visit body ?g0 = _ =>
      destruct (generic_visit_header_after body Hb g0) as (g4' & E' & M & I & D)
    end.
    assert (g4' = g4) by congruence. subst g4'.
    exists g'. split; [exact V|].
    rewrite visit_ClassDef, E in V. simpl mbind in V.
    apply leave_class_header in V. destruct V as (M' & I' & D').
    simpl in M, I, D. rewrite M', I', D'. now repeat split.
  - rewrite visit_Other. apply (generic_visit_header_after cs Hb g).
Qed.

(** X3: a visit sets the module docstring to the text that names the file
    of the module, and adds the import of the test framework to the import
    set, exactly when the subtree holds a module node; however many module
    nodes it holds, the import is in the set once. *)
Theorem module_header_after_visit (n : node) (g : PyTestModuleGenerator) :
  exists g',
    visit n g = Ok g'
    /\ imports g' = (if has_module n then {["import pytest"]} ∪ imports g
                    else imports g)
    /\ module_docstring g'
       = (if has_module n
          then triple_quote +:+ "Unit tests for "
               +:+ String PyStr.backtick (Path.name (module g))
               +:+ String PyStr.backtick triple_quote
          else module_docstring g).
Proof.
  destruct (visit_header_after n g) as (g' & E & M & I & D).
  exists g'. repeat split; assumption.
Qed.

(** * Further properties of the renderer *)

Lemma opening_head (c : option string) (l : string) :
  opening 0 c l -> exists ch s, l = String ch s /\ solid ch = true.
Proof.
  intros [[name ->]|[->|[name ->]]];
    unfold def_line, async_mark_line, clsdef_line;
    change (PyStr.mul tab 0) with ""; rewrite append_nil_l, ?append_cons;
    eexists _, _; (split; [reflexivity|reflexivity]).
Qed.

Lemma join_head (sep x : string) (l : list string) :
  exists t, PyStr.join sep (x :: l) = x +:+ t.
Proof.
  destruct l as [|y l].
  - exists "". simpl. now rewrite append_nil_r.
  - rewrite join_cons. eauto.
Qed.

Lemma module_docstring_of_head (m : Path.t) :
  exists s, module_docstring_of m = String PyStr.quote s.
Proof. unfold module_docstring_of, triple_quote. rewrite append_cons. eauto. Qed.

(** A text that starts with the module docstring and whose end starts at a
    solid byte: [strip] works on that end only. *)
Lemma strip_from_docstring (m : Path.t) (U : string) (ch : ascii) (v : string) :
  solid ch = true ->
  PyStr.strip ((module_docstring_of m +:+ U) +:+ String ch v)
  = (module_docstring_of m +:+ U) +:+ PyStr.rstrip (String ch v).
Proof.
  intros Hc. unfold PyStr.strip. rewrite (rstrip_under _ ch v Hc).
  destruct (module_docstring_of_head m) as [q ->].
  rewrite !append_cons. now apply lstrip_solid.
Qed.

(** X4: the artifact of a module, generated from a fresh generator: the
    docstring line and the import line, then, when the module holds a
    definition, two empty lines and the body lines without the blank end of
    the buffer, and one final newline; a module without definitions gives
    the two header lines alone. *)
Theorem module_artifact (m : Path.t) (body : list node) :
  exists g',
    visit (Module body) (init m) = Ok g'
    /\ code g'
       = module_docstring_of m +:+ linesep +:+ "import pytest"
         +:+ (if existsb emits body
              then linesep +:+ linesep +:+ linesep
                   +:+ PyStr.rstrip (PyStr.join linesep (lines g'))
              else "")
         +:+ linesep.
Proof.
  destruct (visit_header_after (Module body) (init m)) as (g' & E & _ & I & D).
  destruct (visit_shape (Module body) (init m)) as (g'' & E' & a & L & _ & _ & _ & S).
  assert (g'' = g') by congruence. subst g''.
  exists g'. split; [exact E|].
  simpl in I, D, L, S. unfold code.
  rewrite D, I, union_empty_r_L, elements_singleton, L.
  destruct (existsb emits body).
  - destruct S as [(f & r & -> & Hf) _].
    destruct (opening_head _ _ Hf) as (ch & s & -> & Hch).
    destruct (join_head linesep (String ch s) r) as [t Ht].
    simpl app. rewrite !join_cons. unfold blankline.
    rewrite !append_nil_l, Ht, (append_cons ch s t).
    replace (module_docstring_of m +:+ linesep +:+ "import pytest" +:+ linesep
               +:+ linesep +:+ linesep +:+ String ch (s +:+ t))
      with ((module_docstring_of m
               +:+ (linesep +:+ "import pytest" +:+ linesep +:+ linesep +:+ linesep))
              +:+ String ch (s +:+ t))
      by now rewrite !append_assoc.
    rewrite (strip_from_docstring m _ ch (s +:+ t) Hch).
    now rewrite !append_assoc.
  - destruct S as [-> _]. simpl app.
    change [module_docstring_of m; "import pytest"; blankline; blankline]
      with (module_docstring_of m :: "import pytest" :: List.repeat blankline 2).
    rewrite join_cons, join_blanklines, <- !append_assoc, strip_app_newlines.
    change (module_docstring_of m +:+ linesep) with (module_docstring_of m +:+ linesep).
    replace ((module_docstring_of m +:+ linesep) +:+ "import pytest")
      with ((module_docstring_of m +:+ (linesep +:+ "import pytes"))
              +:+ String "t" "")
      by (rewrite !append_assoc; reflexivity).
    rewrite (strip_from_docstring m _ "t" "" eq_refl).
    change (PyStr.rstrip "t") with "t".
    rewrite !append_assoc. reflexivity.
Qed.

(** * Runs of functions *)

Lemma visit_plain_function (name : string) (cs : list node) g :
  existsb emits cs = false ->
  exists g',
    visit (FunctionDef name cs) g = Ok g'
    /\ lines g' = lines g ++ placeholder_block (indent g) (current_cls g) name
    /\ indent g' = indent g
    /\ current_cls g' = current_cls g.
Proof.
  intros Hcs. rewrite visit_FunctionDef.
  match goal with |- context [generic_visit cs ?g0] =>
    destruct (generic_visit_shape cs g0) as (g' & E & a & L & I & _ & _ & S)
  end.
  rewrite Hcs in S. destruct S as [-> C].
  rewrite lines_append_blanklines, app_nil_r in L.
  rewrite indent_append_blanklines in I.
  rewrite current_cls_append_blanklines in C.
  exists g'. split; [exact E|]. simpl in L, I, C.
  unfold placeholder_block. now rewrite L, <- app_assoc.
Qed.

Lemma generic_visit_functions (ms : list (string * list node)) :
  Forall (fun m => existsb emits (snd m) = false) ms ->
  forall g, exists g',
    generic_visit (functions ms) g = Ok g'
    /\ lines g' = lines g
                  ++ flat_map (fun m => placeholder_block (indent g) (current_cls g)
                                          (fst m)) ms
    /\ indent g' = indent g
    /\ current_cls g' = current_cls g.
Proof.
  induction 1 as [|[name cs] ms Hm _ IH]; intros g.
  - exists g. simpl. now rewrite app_nil_r.
  - destruct (visit_plain_function name cs g Hm) as (g1 & E1 & L1 & I1 & C1).
    destruct (IH g1) as (g2 & E2 & L2 & I2 & C2).
    exists g2. simpl functions. rewrite generic_visit_cons, E1.
    split; [exact E2|]. rewrite L2, L1, I1, C1, I2, C2. simpl flat_map.
    now rewrite <- app_assoc.
Qed.

(** X5: a module made of functions that hold no definition of their own
    gives, for each function in order, the three lines of its placeholder
    test, with the receiver and the number of blank lines that [current_cls]
    asks for, and nothing else. *)
Theorem module_of_functions (ms : list (string * list node))
  (g : PyTestModuleGenerator) :
  Forall (fun m => existsb emits (snd m) = false) ms ->
  exists g',
    visit (Module (functions ms)) g = Ok g'
    /\ lines g'
       = lines g
         ++ flat_map (fun m =>
                        [def_line (indent g) (fst m) (arg_self_for (current_cls g));
                         docstring_line (indent g); assert_line (indent g)]
                        ++ List.repeat blankline
                             (match current_cls g with None => 2 | Some _ => 1 end)%nat)
              ms.
Proof.
  intros Hms. rewrite visit_Module.
  match goal with |- context [generic_visit _ ?g0] =>
    destruct (generic_visit_functions ms Hms g0) as (g' & E & L & _)
  end.
  exists g'. split; [exact E|]. exact L.
Qed.

Lemma module_of_functions_witness :
  exists g',
    visit (Module (functions [("add", [Other []]); ("sub", [])]))
      (init ["src"; "calc.py"]) = Ok g'
    /\ lines g' = [def_line 0 "add" ""; docstring_line 0; assert_line 0;
                   blankline; blankline;
                   def_line 0 "sub" ""; docstring_line 0; assert_line 0;
                   blankline; blankline].
Proof.
  destruct (module_of_functions [("add", [Other []]); ("sub", [])]
              (init ["src"; "calc.py"])) as (g' & E & L).
  - repeat constructor.
  - exists g'. split; [exact E|]. exact L.
Defined.

(** X6: a class whose members are functions that hold no definition of
    their own: the class line and its docstring, then each method in order
    with [self] and one blank line after it, [pass] and a blank line only
    when there is no method, and the closing blank line. *)
Theorem class_of_methods (name : string) (ms : list (string * list node))
  (g : PyTestModuleGenerator) :
  Forall (fun m => existsb emits (snd m) = false) ms ->
  exists g',
    visit (ClassDef name (functions ms)) g = Ok g'
    /\ lines g'
       = lines g
         ++ [clsdef_line (indent g) name; cls_docstring_line (indent g) name]
         ++ flat_map (fun m => [def_line (indent g + 1) (fst m) "self";
                                docstring_line (indent g + 1);
                                assert_line (indent g + 1);
                                blankline]) ms
         ++ match ms with
            | [] => [pass_line (indent g + 1); blankline]
            | _ :: _ => []
            end
         ++ [blankline].
Proof.
  intros Hms.
  destruct (visit_ClassDef_lines name (functions ms) g)
    as (g4 & a & g' & E & _ & _ & V & L' & _).
  match type of E with generic_visit _ ?g0 = _ =>
    destruct (generic_visit_functions ms Hms g0) as (g4' & E' & L & _)
  end.
  assert (g4' = g4) by congruence. subst g4'.
  exists g'. split; [exact V|]. rewrite L', L. simpl lines. simpl indent.
  rewrite <- !app_assoc. do 3 f_equal.
  destruct ms as [|m ms]; reflexivity.
Qed.

Lemma class_of_methods_witness :
  exists g',
    visit (ClassDef "Stack" (functions [("push", [Other []]); ("pop", [])]))
      (init ["src"; "stack.py"]) = Ok g'
    /\ lines g' = [clsdef_line 0 "Stack"; cls_docstring_line 0 "Stack";
                   def_line 1 "push" "self"; docstring_line 1; assert_line 1;
                   blankline;
                   def_line 1 "pop" "self"; docstring_line 1; assert_line 1;
                   blankline;
                   blankline].
Proof.
  destruct (class_of_methods "Stack" [("push", [Other []]); ("pop", [])]
              (init ["src"; "stack.py"])) as (g' & E & L).
  - repeat constructor.
  - exists g'. split; [exact E|]. exact L.
Defined.

(** * Indentation *)

Lemma repeat_tab_snoc (k : nat) : PyStr.repeat tab (S k) = PyStr.repeat tab k +:+ tab.
Proof.
  induction k as [|k IH]; [reflexivity|].
  change (PyStr.repeat tab (S (S k))) with (tab +:+ PyStr.repeat tab (S k)).
  rewrite IH at 1. now rewrite <- append_assoc.
Qed.

Lemma mul_tab_succ (i : Z) : exists pad, PyStr.mul tab (i + 1) = PyStr.mul tab i +:+ pad.
Proof.
  unfold PyStr.mul. destruct (Z_lt_le_dec i 0) as [Hi|Hi].
  - exists (PyStr.repeat tab (Z.to_nat (i + 1))).
    now replace (Z.to_nat i) with O by lia.
  - exists tab. replace (Z.to_nat (i + 1)) with (S (Z.to_nat i)) by lia.
    apply repeat_tab_snoc.
Qed.

Lemma indented_at_least_succ (i : Z) (l : string) :
  indented_at_least (i + 1) l -> indented_at_least i l.
Proof.
  intros [->|[r ->]]; [now left|]. right.
  destruct (mul_tab_succ i) as [pad ->]. exists (pad +:+ r).
  now rewrite append_assoc.
Qed.

Lemma indented_at_least_line (i : Z) (r : string) :
  indented_at_least i (PyStr.mul tab i +:+ r).
Proof. right. now exists r. Qed.

Lemma indented_at_least_blank (i : Z) : indented_at_least i blankline.
Proof. now left. Qed.

Lemma indented_blanklines (i : Z) (k : nat) :
  Forall (indented_at_least i) (List.repeat blankline k).
Proof. induction k; simpl; constructor; [apply indented_at_least_blank | assumption]. Qed.

Ltac indented_line :=
  first [ apply indented_at_least_line
        | apply indented_at_least_succ, indented_at_least_line ].

Lemma generic_visit_indented (cs : list node) :
  Forall indented_visit cs ->
  forall g, exists g' added,
    generic_visit cs g = Ok g'
    /\ lines g' = lines g ++ added
    /\ indent g' = indent g
    /\ Forall (indented_at_least (indent g)) added.
Proof.
  induction 1 as [|c cs Hc _ IH]; intros g.
  - exists g, []. rewrite app_nil_r. now repeat split.
  - destruct (Hc g) as (g1 & a1 & E1 & L1 & I1 & F1).
    destruct (IH g1) as (g2 & a2 & E2 & L2 & I2 & F2).
    exists g2, (a1 ++ a2). rewrite generic_visit_cons, E1.
    split; [exact E2|]. rewrite L2, L1, <- app_assoc.
    repeat split; [congruence|]. rewrite I1 in F2. now apply Forall_app.
Qed.

Lemma visit_indented (n : node) : indented_visit n.
Proof.
  induction n as [body Hb|name body Hb|name body Hb|name body Hb|cs Hb]
    using node_tree_ind; intros g.
  - rewrite visit_Module.
    match goal with |- context [generic_visit body ?g0] =>
      destruct (generic_visit_indented body Hb g0) as (g' & a & E & L & I & F)
    end.
    now exists g', a.
  - rewrite visit_FunctionDef.
    match goal with |- context [generic_visit body ?g0] =>
      destruct (generic_visit_indented body Hb g0) as (g' & a & E & L & I & F)
    end.
    rewrite lines_append_blanklines in L. rewrite indent_append_blanklines in I, F.
    simpl in L, I, F.
    eexists g', _. split; [exact E|]. rewrite L, <- !app_assoc.
    split; [reflexivity|]. split; [exact I|].
    repeat (apply Forall_cons; split; [indented_line|]).
    apply Forall_app. split; [apply indented_blanklines | exact F].
  - rewrite visit_AsyncFunctionDef.
    match goal with |- context [generic_visit body ?g0] =>
      destruct (generic_visit_indented body Hb g0) as (g' & a & E & L & I & F)
    end.
    rewrite lines_append_blanklines in L. rewrite indent_append_blanklines in I, F.
    simpl in L, I, F.
    eexists g', _. split; [exact E|]. rewrite L, <- !app_assoc.
    split; [reflexivity|]. split; [exact I|].
    repeat (apply Forall_cons; split; [indented_line|]).
    apply Forall_app. split; [apply indented_blanklines | exact F].
  - destruct (visit_ClassDef_lines name body g)
      as (g4 & a & g' & E & L & _ & V & L' & I' & _).
    match type of E with generic_visit body ?g0 = _ =>
      destruct (generic_visit_indented body Hb g0) as (g4' & a' & E' & La & _ & F)
    end.
    assert (g4' = g4) by congruence. subst g4'.
    simpl in La, F. rewrite La in L'.
    eexists g', _. split; [exact V|]. rewrite L', <- !app_assoc.
    split; [reflexivity|]. split; [exact I'|].
    apply Forall_cons. split; [apply indented_at_least_line|].
    apply Forall_cons. split; [apply indented_at_least_succ, indented_at_least_line|].
    apply Forall_app. split; [eapply Forall_impl; [exact F|apply indented_at_least_succ]|].
    apply Forall_app. split.
    + destruct (existsb emits body); [constructor|].
      apply Forall_cons. split; [indented_line|].
      apply Forall_cons. split; [apply indented_at_least_blank | constructor].
    + apply Forall_cons. split; [apply indented_at_least_blank | constructor].
  - rewrite visit_Other. apply (generic_visit_indented cs Hb).
Qed.

(** X7: every line a visit appends is blank or starts with at least the
    indentation the generator had when the visit began. *)
Theorem visit_keeps_indentation (n : node) (g : PyTestModuleGenerator) :
  exists g' added,
    visit n g = Ok g'
    /\ lines g' = lines g ++ added
    /\ Forall (fun l => l = blankline
                        \/ exists r, l = PyStr.mul tab (indent g) +:+ r) added.
Proof.
  destruct (visit_indented n g) as (g' & a & E & L & _ & F).
  now exists g', a.
Qed.

(** X8: in the block of a class, every line after the class line is blank
    or indented at least one level deeper than the class line, whatever the
    members are. *)
Theorem class_block_is_nested (name : string) (body : list node)
  (g : PyTestModuleGenerator) :
  exists g' rest,
    visit (ClassDef name body) g = Ok g'
    /\ lines g' = lines g
                  ++ (PyStr.mul tab (indent g) +:+ "class Test" +:+ name +:+ ":")
                  :: rest
    /\ Forall (fun l => l = blankline
                        \/ exists r, l = PyStr.mul tab (indent g + 1) +:+ r) rest.
Proof.
  destruct (visit_ClassDef_lines name body g)
    as (g4 & a & g' & E & L & _ & V & L' & _).
  match type of E with generic_visit body ?g0 = _ =>
    destruct (generic_visit_indented body
                (proj2 (Forall_forall _ _) (fun n _ => visit_indented n)) g0)
      as (g4' & a' & E' & La & _ & F)
  end.
  assert (g4' = g4) by congruence. subst g4'.
  simpl in La, F. rewrite La in L'.
  eexists g', _. split; [exact V|]. rewrite L', <- !app_assoc.
  split; [reflexivity|].
  apply Forall_cons. split; [apply indented_at_least_line|].
  apply Forall_app. split; [exact F|].
  apply Forall_app. split.
  - destruct (existsb emits body); [constructor|].
    apply Forall_cons. split; [apply indented_at_least_line|].
    apply Forall_cons. split; [apply indented_at_least_blank | constructor].
  - apply Forall_cons. split; [apply indented_at_least_blank | constructor].
Qed.

(** * Further properties of the writer *)

Lemma parent_conftest_path g : Path.parent (conftest_path g) = tests_dir g.
Proof. apply parent_div. Qed.

Lemma parent_test_module_path g : Path.parent (test_module_path g) = tests_dir g.
Proof. apply parent_div. Qed.

Ltac path_ne :=
  first [ assumption
        | apply div_ne
        | apply not_eq_sym, div_ne
        | apply conftest_ne_test_module
        | apply not_eq_sym, conftest_ne_test_module
        | apply not_eq_sym; assumption ].

Ltac fs_simpl :=
  repeat (simpl files || simpl stdout
          || rewrite parent_conftest_path || rewrite parent_test_module_path
          || rewrite lookup_insert_eq
          || rewrite lookup_insert_ne by path_ne).

(** The world once the marker is there. *)
Lemma write_from_tests_dir (g : PyTestModuleGenerator) (w : World) :
  files w !! tests_dir g = Some Dir ->
  write g w =
  let w2 := match files w !! conftest_path g with
            | Some _ => w
            | None => set_files (<[conftest_path g := File ""]> (files w)) w
            end in
  match files w !! test_module_path g with
  | Some Dir => (Raise IsADirectoryError, w2)
  | _ => (Ok tt, set_files (<[test_module_path g := File (code g)]> (files w2)) w2)
  end.
Proof.
  intros Htd. unfold write, mbind, io_bind, mkdir_exist_ok. rewrite Htd.
  unfold touch_exist_ok.
  destruct (files w !! conftest_path g) as [e|] eqn:Ecf.
  - unfold write_text, create. rewrite parent_test_module_path, Htd.
    destruct (files w !! test_module_path g) as [[d| |b]|]; reflexivity.
  - unfold create at 1. rewrite parent_conftest_path, Htd.
    unfold write_text, create. fs_simpl. rewrite Htd.
    destruct (files w !! test_module_path g) as [[d| |b]|]; reflexivity.
Qed.

Lemma write_makes_tests_dir (g : PyTestModuleGenerator) (w : World) :
  files w !! tests_dir g = None ->
  files w !! Path.parent (tests_dir g) = Some Dir ->
  write g w = write g (set_files (<[tests_dir g := Dir]> (files w)) w).
Proof.
  intros Htd Hp. unfold write, mbind, io_bind, mkdir_exist_ok.
  rewrite Htd. unfold create at 1. rewrite Hp. fs_simpl. reflexivity.
Qed.

Lemma write_outcome_from_tests_dir (g : PyTestModuleGenerator) (w : World) :
  files w !! tests_dir g = Some Dir ->
  stdout (snd (write g w)) = stdout w
  /\ (forall q, q <> conftest_path g -> q <> test_module_path g ->
                files (snd (write g w)) !! q = files w !! q)
  /\ files (snd (write g w)) !! conftest_path g
     = Some (default (File "") (files w !! conftest_path g))
  /\ match fst (write g w) with
     | Ok _ =>
         files w !! test_module_path g <> Some Dir
         /\ files (snd (write g w)) !! test_module_path g = Some (File (code g))
     | Raise e =>
         e = IsADirectoryError
         /\ files w !! test_module_path g = Some Dir
         /\ files (snd (write g w)) !! test_module_path g = Some Dir
     end.
Proof.
  intros Htd. rewrite (write_from_tests_dir g w Htd).
  destruct (files w !! conftest_path g) as [e|] eqn:Ecf;
    destruct (files w !! test_module_path g) as [[d| |b]|] eqn:Etm;
    cbv zeta; simpl fst; simpl snd; fs_simpl;
    (split; [reflexivity|]);
    (split; [intros q H1 H2; fs_simpl; reflexivity|]);
    (split; [first [exact Ecf | reflexivity]|]);
    repeat split; try discriminate; try reflexivity; try exact Etm.
Qed.

Lemma write_without_tests_dir (g : PyTestModuleGenerator) (w : World) :
  files w !! tests_dir g <> Some Dir ->
  (files w !! tests_dir g = None ->
   files w !! Path.parent (tests_dir g) <> Some Dir) ->
  exists e, write g w = (Raise e, w)
            /\ (forall c, files w !! tests_dir g = Some (File c) ->
                          e = FileExistsError).
Proof.
  intros Hd Hp. unfold write, mbind, io_bind, mkdir_exist_ok.
  destruct (files w !! tests_dir g) as [[c| |b]|] eqn:Etd.
  - exists FileExistsError. now split.
  - congruence.
  - exists FileExistsError. now split.
  - unfold create.
    destruct (files w !! Path.parent (tests_dir g)) as [[c| |b]|] eqn:Ep.
    + exists NotADirectoryError. split; [reflexivity | discriminate].
    + now destruct (Hp eq_refl).
    + exists NotADirectoryError. split; [reflexivity | discriminate].
    + exists FileNotFoundError. split; [reflexivity | discriminate].
Qed.

(** What [write] leaves behind in every case. *)
Lemma write_outcome (g : PyTestModuleGenerator) (w : World) :
  stdout (snd (write g w)) = stdout w
  /\ (forall q, q <> tests_dir g -> q <> conftest_path g ->
                q <> test_module_path g ->
                files (snd (write g w)) !! q = files w !! q)
  /\ match fst (write g w) with
     | Ok _ =>
         write_ready g w
         /\ files (snd (write g w)) !! tests_dir g = Some Dir
         /\ files (snd (write g w)) !! conftest_path g
            = Some (default (File "") (files w !! conftest_path g))
         /\ files (snd (write g w)) !! test_module_path g = Some (File (code g))
     | Raise _ => ~ write_ready g w
     end.
Proof.
  destruct (files w !! tests_dir g) as [[c| |b]|] eqn:Etd;
    [ destruct (write_without_tests_dir g w) as (e & -> & _);
        [congruence | congruence |]; simpl;
      repeat split; intros [[H|[H _]] _]; congruence
    | 
    | destruct (write_without_tests_dir g w) as (e & -> & _);
        [congruence | congruence |]; simpl;
      repeat split; intros [[H|[H _]] _]; congruence
    | ].
  - destruct (write_outcome_from_tests_dir g w Etd) as (S & F & C & R).
    split; [exact S|]. split; [intros q _; apply F|].
    destruct (fst (write g w)).
    + destruct R as [Hne T]. repeat split; try assumption.
      * now left.
      * rewrite F by path_ne. exact Etd.
    + destruct R as (_ & Htm & _). intros [_ H]. now apply H.
  - destruct (files w !! Path.parent (tests_dir g)) as [[c| |b]|] eqn:Ep;
      [ destruct (write_without_tests_dir g w) as (e & -> & _);
          [congruence | congruence |]; simpl;
        repeat split; intros [[H|[_ H]] _]; congruence
      |
      | destruct (write_without_tests_dir g w) as (e & -> & _);
          [congruence | congruence |]; simpl;
        repeat split; intros [[H|[_ H]] _]; congruence
      | ].
    + rewrite (write_makes_tests_dir g w Etd Ep).
      destruct (write_outcome_from_tests_dir g
                  (set_files (<[tests_dir g := Dir]> (files w)) w))
        as (S & F & C & R); [apply lookup_insert_eq|].
      simpl files in C, R. simpl stdout in S.
      rewrite lookup_insert_ne in C by path_ne.
      rewrite lookup_insert_ne in R by path_ne.
      split; [exact S|].
      split; [intros q H1 H2 H3; rewrite F by assumption; now fs_simpl|].
      match goal with |- match fst ?x with _ => _ end => destruct (fst x) end.
      * destruct R as [Hne T]. repeat split; try assumption.
        -- right. now split.
        -- rewrite F by path_ne. apply lookup_insert_eq.
      * destruct R as (_ & Htm & _). intros [_ H]. now apply H.
    + destruct (write_without_tests_dir g w) as (e & -> & _);
        [congruence | congruence |]. simpl.
      repeat split. intros [[H|[_ H]] _]; congruence.
Qed.

(** X9: whatever [write] returns or raises, it prints nothing and leaves
    every path alone but three: the directory of the tests, [conftest.py]
    in it and the test module in it. The module that was read, in
    particular, is never touched. *)
Theorem write_touches_three_paths (g : PyTestModuleGenerator) (w : World) :
  stdout (snd (write g w)) = stdout w
  /\ forall q, q <> tests_dir g ->
               q <> Path.div (tests_dir g) "conftest.py" ->
               q <> Path.div (tests_dir g)
                      ("test_" +:+ Path.stem (module g) +:+ ".py") ->
               files (snd (write g w)) !! q = files w !! q.
Proof.
  destruct (write_outcome g w) as (S & F & _). split; [exact S | exact F].
Qed.


(** X11: the two ways [write] fails on what is in its way. A file at the
    path of the tests directory: [FileExistsError], nothing changed. A
    directory at the path of the test module, the tests directory being
    there: [IsADirectoryError], and by then [conftest.py] has been created
    if it was absent. *)
Theorem write_failures (g : PyTestModuleGenerator) (w : World) :
  (forall c, files w !! tests_dir g = Some (File c) ->
             write g w = (Raise FileExistsError, w))
  /\ (files w !! tests_dir g = Some Dir ->
      files w !! test_module_path g = Some Dir ->
      write g w
      = (Raise IsADirectoryError,
         match files w !! conftest_path g with
         | Some _ => w
         | None => set_files (<[conftest_path g := File ""]> (files w)) w
         end)).
Proof.
  split.
  - intros c Hc.
    destruct (write_without_tests_dir g w) as (e & E & He); [congruence..|].
    now rewrite E, (He c Hc).
  - intros Htd Htm. rewrite (write_from_tests_dir g w Htd), Htm. reflexivity.
Qed.

Lemma write_failures_witness :
  exists w',
    write (init ["src"; "a.py"]) blocked_world = (Raise IsADirectoryError, w')
    /\ files w' !! ["src"; "tests"; "conftest.py"] = Some (File "")
    /\ files blocked_world !! ["src"; "tests"; "conftest.py"] = None.
Proof.
  eexists. split.
  - apply (proj2 (write_failures (init ["src"; "a.py"]) blocked_world));
      vm_compute; reflexivity.
  - split; vm_compute; reflexivity.
Defined.

(** X12: a world that [write] has left is a fixed point of [write]: a
    second call with the same generator returns and changes nothing. *)
Theorem write_twice_same_world (g : PyTestModuleGenerator) (w w' : World) :
  write g w = (Ok tt, w') -> write g w' = (Ok tt, w').
Proof.
  intros E. destruct (write_outcome g w) as (_ & _ & R).
  rewrite E in R. simpl in R. destruct R as (_ & Htd & Hcf & Htm).
  rewrite (write_again g w' Htd); [| rewrite Hcf; eauto | eauto].
  f_equal. destruct w' as [f o]. unfold set_files. simpl in *.
  f_equal. now apply insert_id.
Qed.

Lemma write_twice_same_world_witness :
  let w' := snd (write (init ["src"; "a.py"]) demo_world) in
  write (init ["src"; "a.py"]) demo_world = (Ok tt, w')
  /\ write (init ["src"; "a.py"]) w' = (Ok tt, w').
Proof.
  intros w'.
  assert (E : write (init ["src"; "a.py"]) demo_world = (Ok tt, w'))
    by (vm_compute; reflexivity).
  split; [exact E|].
  exact (write_twice_same_world (init ["src"; "a.py"]) demo_world w' E).
Defined.

(** * Where the test module goes *)

Lemma rfind_app (c : ascii) (a b : string) :
  PyStr.rfind c (a +:+ b) =
  match PyStr.rfind c b with
  | Some i => Some (String.length a + i)%nat
  | None => PyStr.rfind c a
  end.
Proof.
  induction a as [|x a IH].
  - rewrite append_nil_l. destruct (PyStr.rfind c b); reflexivity.
  - rewrite append_cons. simpl PyStr.rfind. rewrite IH.
    destruct (PyStr.rfind c b); reflexivity.
Qed.

Lemma substring_prefix (s t : string) :
  String.substring 0 (String.length s) (s +:+ t) = s.
Proof.
  induction s as [|x s IH].
  - rewrite append_nil_l. destruct t; reflexivity.
  - rewrite append_cons. simpl. now rewrite IH.
Qed.

Lemma stem_of_name (dir : Path.t) (s ext : string) :
  s <> "" -> ext <> "" -> PyStr.rfind "." ext = None ->
  Path.stem (dir ++ [s +:+ "." +:+ ext]) = s.
Proof.
  intros Hs He Hext. unfold Path.stem, Path.name. rewrite last_last.
  rewrite rfind_app.
  change ("." +:+ ext) with (String "." ext).
  simpl PyStr.rfind. rewrite Hext. simpl.
  assert (Hls : (0 < String.length s)%nat) by (destruct s; [congruence | simpl; lia]).
  assert (Hle : (0 < String.length ext)%nat) by (destruct ext; [congruence | simpl; lia]).
  rewrite append_length. simpl String.length.
  replace (0 <? String.length s + 0)%nat with true
    by (symmetry; apply Nat.ltb_lt; lia).
  replace (String.length s + 0 <? String.length s + S (String.length ext) - 1)%nat
    with true by (symmetry; apply Nat.ltb_lt; lia).
  simpl. rewrite Nat.add_0_r. apply substring_prefix.
Qed.

(** X13: for a module [<s>.<ext>] in a directory, [s] not empty and [ext]
    not empty and without a dot, the generator made by [__init__] writes
    into [tests] beside the module: the marker is [tests/conftest.py] and
    the test module is [tests/test_<s>.py], whatever the extension was. *)
Theorem test_module_location (dir : Path.t) (s ext : string) :
  s <> "" -> ext <> "" -> PyStr.rfind "." ext = None ->
  let g := init (dir ++ [s +:+ "." +:+ ext]) in
  tests_dir g = dir ++ ["tests"]
  /\ conftest_path g = dir ++ ["tests"; "conftest.py"]
  /\ test_module_path g = dir ++ ["tests"; "test_" +:+ s +:+ ".py"].
Proof.
  intros Hs He Hext g.
  assert (Ht : tests_dir g = dir ++ ["tests"]).
  { unfold g, init, Path.div, Path.parent. simpl. now rewrite removelast_last. }
  split; [exact Ht|]. unfold conftest_path, test_module_path, Path.div.
  rewrite Ht, <- !app_assoc. split; [reflexivity|].
  unfold g. simpl module. now rewrite (stem_of_name dir s ext Hs He Hext).
Qed.

Lemma test_module_location_witness :
  test_module_path (init ["home"; "src"; "my.module.pyi"])
  = ["home"; "src"; "tests"; "test_my.module.py"].
Proof.
  apply (test_module_location ["home"; "src"] "my.module" "pyi");
    [discriminate | discriminate | reflexivity].
Defined.

(** * Further properties of [generate] and of the loop *)



Lemma loop_modules_skip (ast_parse : string -> result node)
  (m : Path.t) (rest : list Path.t) (w : World) :
  skipped w m ->
  loop_modules ast_parse (m :: rest) w = loop_modules ast_parse rest w.
Proof.
  intros Hs. simpl loop_modules. unfold mbind, io_bind, is_dir.
  destruct Hs as [Hd|Hn].
  - now rewrite Hd.
  - rewrite Hn, orb_true_r. reflexivity.
Qed.

(** X15: paths that are directories, or whose name starts with an
    underscore, are passed over: a list of such paths, the empty list
    included, prints nothing, writes nothing and returns. *)
Theorem loop_modules_skips (ast_parse : string -> result node)
  (modules : list Path.t) (w : World) :
  Forall (fun m => files w !! m = Some Dir
                   \/ PyStr.startswith (Path.name m) "_" = true) modules ->
  loop_modules ast_parse modules w = (Ok tt, w).
Proof.
  induction 1 as [|m ms Hm _ IH]; [reflexivity|].
  now rewrite (loop_modules_skip ast_parse m ms w Hm).
Qed.

Lemma loop_modules_skips_witness :
  loop_modules sample_parse [["src"]; ["src"; "__init__.py"]; ["src"; "_b.py"]]
    demo_world
  = (Ok tt, demo_world).
Proof.
  apply loop_modules_skips.
  repeat (apply Forall_cons; split; [|]); [left|right|right|constructor];
    reflexivity.
Defined.

(** X16: the loop stops at the first module that fails: the modules listed
    after it are not processed, whatever they are, and the error and the
    world are those of the failure. *)
Theorem loop_modules_stops_at_failure (ast_parse : string -> result node)
  (pre rest : list Path.t) (w w1 : World) (e : exn) :
  loop_modules ast_parse pre w = (Raise e, w1) ->
  loop_modules ast_parse (pre ++ rest) w = (Raise e, w1).
Proof. intros H. now rewrite loop_modules_app, H. Qed.

Lemma loop_modules_stops_at_failure_witness :
  exists w1,
    loop_modules sample_parse [["src"; "b.py"]; ["src"; "a.py"]] demo_world
    = (Raise (ParseError "invalid syntax"), w1)
    /\ files w1 !! ["src"; "tests"; "test_a.py"] = None.
Proof.
  exists (snd (loop_modules sample_parse [["src"; "b.py"]] demo_world)).
  split.
  - apply (loop_modules_stops_at_failure sample_parse
             [["src"; "b.py"]] [["src"; "a.py"]]).
    vm_compute. reflexivity.
  - vm_compute. reflexivity.
Defined.





(** * Nested functions *)

Lemma generic_visit_app (a b : list node) (g : PyTestModuleGenerator) :
  generic_visit (a ++ b) g = (g' ← generic_visit a g; generic_visit b g').
Proof.
  revert g. induction a as [|c a IH]; intros g; [reflexivity|].
  simpl app. rewrite !generic_visit_cons.
  destruct (visit c g) as [g1|e]; [apply IH | reflexivity].
Qed.

(** X18: the definitions inside a function, plain or async, are written as
    if they followed it among its siblings: same indentation, same
    receiver, same blank lines. *)
Theorem nested_definitions_are_flattened (name : string)
  (body rest : list node) (g : PyTestModuleGenerator) :
  generic_visit (FunctionDef name body :: rest) g
  = generic_visit (FunctionDef name [] :: body ++ rest) g
  /\ generic_visit (AsyncFunctionDef name body :: rest) g
     = generic_visit (AsyncFunctionDef name [] :: body ++ rest) g.
Proof.
  split; rewrite !generic_visit_cons;
    [rewrite !visit_FunctionDef | rewrite !visit_AsyncFunctionDef];
    rewrite generic_visit_nil; unfold mbind, result_bind; cbv beta iota;
    rewrite generic_visit_app; reflexivity.
Qed.
